(** * MinRide data generator: a shallow embedding of [DataGenerator/main.cpp]

    The program seeds the C library generator, then writes three CSV files
    (drivers, customers, rides) whose fields are drawn with [rand()].

    - [int] is a 32-bit two's-complement integer, kept in [Z] with its
      wrap-around written out ([wrap_int]).
    - [double] is IEEE 754 binary64.  It is embedded as the Standard Library's
      [spec_float] with [prec = 53] and [emax = 1024]; every arithmetic
      operation is the correctly rounded one of [SpecFloat].
    - [rand()], [time()], [localtime()] and the file system are the
      environment.  They are Section variables: the sequence of [rand()]
      results, the sequence of clock readings, the calendar conversion and
      the set of paths that can be opened for writing.
    - The process state (how many draws and clock readings were consumed,
      what was printed, what the files hold) is threaded by a small state
      monad. *)

From Stdlib Require Import ZArith QArith Lia List Bool String Ascii.
From Stdlib Require Import SpecFloat DecimalString.
Import ListNotations.

Open Scope string_scope.
Open Scope Z_scope.

(* ================================================================== *)
(** * Part I: definitions *)
(* ================================================================== *)

(** ** 32-bit [int] arithmetic *)

Definition INT_MAX : Z := 2147483647.
Definition INT_MIN : Z := -2147483648.

Definition wrap_int (z : Z) : Z := (z + 2147483648) mod 4294967296 - 2147483648.

Definition int_add (a b : Z) : Z := wrap_int (a + b).
Definition int_sub (a b : Z) : Z := wrap_int (a - b).
Definition int_mul (a b : Z) : Z := wrap_int (a * b).

(** C++ [%] truncates toward zero.  A zero divisor is undefined behaviour in
    the source; [Z.rem a 0 = a] here, and no theorem below relies on it. *)
Definition int_rem (a b : Z) : Z := Z.rem a b.

(** [time_t] is a 64-bit signed integer. *)
Definition wrap_time (z : Z) : Z :=
  (z + 9223372036854775808) mod 18446744073709551616 - 9223372036854775808.

(** ** [double] arithmetic *)

Definition prec : Z := 53.
Definition emax : Z := 1024.
Definition double : Set := spec_float.

Definition d_add : double -> double -> double := SFadd prec emax.
Definition d_sub : double -> double -> double := SFsub prec emax.
Definition d_mul : double -> double -> double := SFmul prec emax.
Definition d_div : double -> double -> double := SFdiv prec emax.

(** Conversion [int -> double]; exact, a 32-bit integer fits in 53 bits. *)
Definition of_int (z : Z) : double := binary_normalize prec emax z 0 false.

(** The literals [3.5] and [5.0] of the driver loop. *)
Definition d_3_5 : double := binary_normalize prec emax 7 (-1) false.
Definition d_5_0 : double := of_int 5.

(** Modelled from the spec: the C library's [round] is not part of the
    repository.  It is "standard half-away-from-zero rounding as provided by
    the runtime's rounding primitive": the magnitude [m * 2^e] goes to
    [floor (m * 2^e + 1/2)], the sign is kept, and the integer is a double
    again. *)
Definition round_half_away (m : positive) (e : Z) : Z :=
  if 0 <=? e then Zpos m * 2 ^ e
  else (2 * Zpos m + 2 ^ (- e)) / 2 ^ (1 - e).

Definition d_round (x : double) : double :=
  match x with
  | S754_finite s m e =>
      binary_normalize prec emax (cond_Zopp s (round_half_away m e)) 0 s
  | _ => x
  end.

(** The real number a double denotes, as a rational ([0] for infinities and
    NaN, which [d_is_finite] tells apart). *)
Definition grid_point (b L : Z) : Q :=
  if 0 <=? b then inject_Z (L * 2 ^ b) else Qmake L (Z.to_pos (2 ^ (- b))).

Definition d_value (x : double) : Q :=
  match x with
  | S754_finite s m e => grid_point e (cond_Zopp s (Zpos m))
  | _ => 0%Q
  end.

Definition d_is_finite (x : double) : bool :=
  match x with
  | S754_zero _ | S754_finite _ _ _ => true
  | _ => false
  end.

Definition d_between (lo hi : Q) (x : double) : Prop :=
  d_is_finite x = true /\ (lo <= d_value x)%Q /\ (d_value x <= hi)%Q.

Definition d_betweenb (lo hi : Q) (x : double) : bool :=
  d_is_finite x && Qle_bool lo (d_value x) && Qle_bool (d_value x) hi.

(** ** Text output of numbers *)

(** [operator<<] on an [int]: plain decimal. *)
Definition show_int (z : Z) : string := NilZero.string_of_int (Z.to_int z).

Fixpoint zeros (n : nat) : string :=
  match n with
  | O => ""
  | S k => "0" ++ zeros k
  end.

(** [setfill('0') << setw(w)] before an [int]: filled on the left up to
    width [w], never truncated. *)
Definition show_int_width (w : nat) (z : Z) : string :=
  let s := show_int z in zeros (w - String.length s) ++ s.

(** Modelled from the spec: the stream formatter is the C++ runtime's.
    "Numeric fields use fixed decimal formatting: one digit after the decimal
    point for ratings/coordinates/distance, zero digits for fare."  With
    [fixed] and [setprecision(p)] the exact binary value is rounded to [p]
    decimals, to nearest and ties to even; [fixed_scaled] is that decimal
    times [10^p]. *)
Definition fixed_scaled (p : nat) (m : positive) (e : Z) : Z :=
  let num := Zpos m * 10 ^ Z.of_nat p in
  if 0 <=? e then num * 2 ^ e
  else
    let den := 2 ^ (- e) in
    let q := num / den in
    match (2 * (num mod den)) ?= den with
    | Lt => q
    | Gt => q + 1
    | Eq => if Z.even q then q else q + 1
    end.

Definition show_decimal (p : nat) (n : Z) : string :=
  let unit := 10 ^ Z.of_nat p in
  match p with
  | O => show_int n
  | S _ => show_int (n / unit) ++ "." ++ show_int_width p (n mod unit)
  end.

Definition show_sign (s : bool) : string := if s then "-" else "".

Definition show_fixed (p : nat) (x : double) : string :=
  match x with
  | S754_nan => "nan"
  | S754_infinity s => show_sign s ++ "inf"
  | S754_zero s => show_sign s ++ show_decimal p 0
  | S754_finite s m e => show_sign s ++ show_decimal p (fixed_scaled p m e)
  end.

(** The decimal a finite non-negative double is printed as, times [10^p]. *)
Definition fixed_field (p : nat) (x : double) : option Z :=
  match x with
  | S754_zero _ => Some 0%Z
  | S754_finite false m e => Some (fixed_scaled p m e)
  | _ => None
  end.

(** ** Configuration and name tables *)

Definition SO_TAI_XE : Z := 100.
Definition SO_KHACH_HANG : Z := 100.
Definition SO_CHUYEN_DI : Z := 500.
Definition THU_MUC_OUTPUT : string := "../MinRide/Data".

Definition HO : list string :=
  ["Nguyen"; "Tran"; "Le"; "Pham"; "Hoang"; "Vo"; "Dang"; "Bui"; "Ngo"; "Truong"].
Definition TEN_DEM : list string :=
  ["Van"; "Thi"; "Duc"; "Minh"; "Quang"; "Thanh"; "Manh"; "Quoc"; "Hong"; "Tuan"].
Definition TEN : list string :=
  ["An"; "Binh"; "Cuong"; "Dung"; "Em"; "Phong"; "Giang"; "Hai"; "Khoa"; "Lam";
   "Hoa"; "Lan"; "Linh"; "Nga"; "Huong"; "Tam"; "Tuan"; "Hung"; "Duc"; "Thao"].
Definition QUAN : list string :=
  ["Quan 1"; "Quan 3"; "Quan 5"; "Quan 7"; "Quan 10";
   "Quan Binh Thanh"; "Quan Go Vap"; "Quan Thu Duc"; "Quan Phu Nhuan";
   "Quan Tan Binh"].

(** Array indexing; the source never indexes out of range (the default is
    not reached by the program). *)
Definition at_index (a : list string) (i : Z) : string := nth (Z.to_nat i) a "".

(** ** The pure part of the utilities *)

(** [min + rand() % (max - min + 1)] with [r] the value [rand()] returned. *)
Definition randomInt_of (r min max : Z) : Z :=
  int_add min (int_rem r (int_add (int_sub max min) 1)).

(** [min + (double)rand() / RAND_MAX * (max - min)]. *)
Definition randomDouble_of (RAND_MAX r : Z) (min max : double) : double :=
  d_add min (d_mul (d_div (of_int r) (of_int RAND_MAX)) (d_sub max min)).

(** [round(x * 10) / 10]. *)
Definition lam_tron (x : double) : double :=
  d_div (d_round (d_mul x (of_int 10))) (of_int 10).

(** [struct tm], the fields the program reads. *)
Record tm : Set := mk_tm {
  tm_year : Z; tm_mon : Z; tm_mday : Z; tm_hour : Z; tm_min : Z; tm_sec : Z
}.

(** The [stringstream] chain of [sinh_timestamp]. *)
Definition format_tm (t : tm) : string :=
  show_int (int_add 1900 (tm_year t)) ++ "-" ++
  show_int_width 2 (int_add 1 (tm_mon t)) ++ "-" ++
  show_int_width 2 (tm_mday t) ++ "T" ++
  show_int_width 2 (tm_hour t) ++ ":" ++
  show_int_width 2 (tm_min t) ++ ":" ++
  show_int_width 2 (tm_sec t).

(** [now -= ngay_truoc * 86400 + h * 3600]: the right-hand side is [int]
    arithmetic, the subtraction is [time_t] arithmetic. *)
Definition shifted_time (now ngay_truoc h : Z) : Z :=
  wrap_time (now - int_add (int_mul ngay_truoc 86400) (int_mul h 3600)).

Definition status_of (draw : Z) : string :=
  if draw <=? 8 then "CONFIRMED" else "CANCELLED".

(** ** Records of one output line each *)

Record DriverRow : Set := mk_driver {
  dr_id : Z; dr_name : string; dr_rating : double;
  dr_x : double; dr_y : double; dr_total : Z
}.

Record CustomerRow : Set := mk_customer {
  cu_id : Z; cu_name : string; cu_district : string;
  cu_x : double; cu_y : double
}.

Record RideRow : Set := mk_ride {
  ri_id : Z; ri_customer : Z; ri_driver : Z; ri_distance : double;
  ri_fare : double; ri_timestamp : string; ri_status : string
}.

(** The text of a line, without its final newline.  [fixed] and
    [setprecision(1)] are in force for every double but the fare, which is
    written under [setprecision(0)]. *)
Definition driver_line (d : DriverRow) : string :=
  show_int (dr_id d) ++ "," ++ dr_name d ++ "," ++
  show_fixed 1 (dr_rating d) ++ "," ++
  show_fixed 1 (dr_x d) ++ "," ++ show_fixed 1 (dr_y d) ++ "," ++
  show_int (dr_total d).

Definition customer_line (c : CustomerRow) : string :=
  show_int (cu_id c) ++ "," ++ cu_name c ++ "," ++ cu_district c ++ "," ++
  show_fixed 1 (cu_x c) ++ "," ++ show_fixed 1 (cu_y c).

Definition ride_line (r : RideRow) : string :=
  show_int (ri_id r) ++ "," ++ show_int (ri_customer r) ++ "," ++
  show_int (ri_driver r) ++ "," ++
  show_fixed 1 (ri_distance r) ++ "," ++ show_fixed 0 (ri_fare r) ++ "," ++
  ri_timestamp r ++ "," ++ ri_status r.

Definition driver_header : string := "ID,Name,Rating,X,Y,TotalRides".
Definition customer_header : string := "ID,Name,District,X,Y".
Definition ride_header : string :=
  "RideId,CustomerId,DriverId,Distance,Fare,Timestamp,Status".

(** ** Process state and the state monad *)

(** A file is the list of the lines written to it.  [fs p = None]: no file
    at path [p]. *)
Definition FileSystem : Type := string -> option (list string).

Record Proc : Type := mk_proc {
  rand_calls : nat;          (* rand() calls made so far *)
  time_calls : nat;          (* time() calls made so far *)
  cout : list string;        (* what was printed, one entry per statement *)
  fs : FileSystem
}.

Definition M (A : Type) : Type := Proc -> A * Proc.

Definition ret {A : Type} (a : A) : M A := fun s => (a, s).

Definition bind {A B : Type} (m : M A) (k : A -> M B) : M B :=
  fun s => let p := m s in k (fst p) (snd p).

Declare Scope proc_scope.
Delimit Scope proc_scope with proc.
Notation "x <- m ;; k" := (bind m (fun x => k))
  (at level 61, m at next level, right associativity) : proc_scope.
Notation "m ;;; k" := (bind m (fun _ => k))
  (at level 61, right associativity) : proc_scope.
Open Scope proc_scope.

Definition fs_set (f : FileSystem) (p : string) (c : list string) : FileSystem :=
  fun q => if String.eqb q p then Some c else f q.

(** An [ofstream]: its path and whether it is open (a stream that failed to
    open ignores every write). *)
Record ofstream : Set := mk_ofstream { os_path : string; os_open : bool }.

(** A counted loop [for (i = first; ...; i++)] of [n] iterations, keeping
    what each iteration produced. *)
Fixpoint for_count {A : Type} (n : nat) (i : Z) (body : Z -> M A) : M (list A) :=
  match n with
  | O => ret []
  | S k =>
      x <- body i ;;
      xs <- for_count k (i + 1) body ;;
      ret (x :: xs)
  end.

(** [for (int i = 1; i <= last; i++)]. *)
Definition for_upto {A : Type} (last : Z) (body : Z -> M A) : M (list A) :=
  for_count (Z.to_nat last) 1 body.

(** What one run generated; the source discards each record once its line is
    written, the model keeps them to state properties of the rows. *)
Record Generated : Set := mk_generated {
  drivers : list DriverRow;
  customers : list CustomerRow;
  rides : list RideRow
}.

Section Program.

(** The environment of a run. *)
Variable RAND_MAX : Z.                 (* the library's constant *)
Variable rand_seq : nat -> Z.          (* k-th result of rand() *)
Variable clock : nat -> Z.             (* k-th result of time(nullptr) *)
Variable localtime : Z -> tm.          (* calendar conversion *)
Variable can_open : string -> bool.    (* can an ofstream open the path *)

Definition rand : M Z := fun s =>
  (rand_seq (rand_calls s),
   mk_proc (S (rand_calls s)) (time_calls s) (cout s) (fs s)).

Definition time : M Z := fun s =>
  (clock (time_calls s),
   mk_proc (rand_calls s) (S (time_calls s)) (cout s) (fs s)).

(** [srand(seed)] selects the sequence [rand_seq]; it has no other
    effect on the state. *)
Definition srand (seed : Z) : M unit := ret tt.

Definition print (text : string) : M unit := fun s =>
  (tt, mk_proc (rand_calls s) (time_calls s) (cout s ++ [text])%list (fs s)).

(** [ofstream f(path)]: on success the file is created or truncated. *)
Definition open (path : string) : M ofstream := fun s =>
  if can_open path
  then (mk_ofstream path true,
        mk_proc (rand_calls s) (time_calls s) (cout s) (fs_set (fs s) path []))
  else (mk_ofstream path false, s).

(** One [f << ... << "\n"] chain. *)
Definition put_line (f : ofstream) (line : string) : M unit := fun s =>
  if os_open f
  then match fs s (os_path f) with
       | Some ls =>
           (tt, mk_proc (rand_calls s) (time_calls s) (cout s)
                        (fs_set (fs s) (os_path f) (ls ++ [line])%list))
       | None => (tt, s)
       end
  else (tt, s).

Definition close (f : ofstream) : M unit := ret tt.

Definition randomInt (min max : Z) : M Z :=
  r <- rand ;; ret (randomInt_of r min max).

Definition randomDouble (min max : double) : M double :=
  r <- rand ;; ret (randomDouble_of RAND_MAX r min max).

(** The language leaves open in which order the operands of [+] are
    evaluated; g++ takes the right operand of each [+] first, so the given
    name is drawn first, then the middle name, then the surname. *)
Definition sinh_ten : M string :=
  c <- randomInt 0 19 ;;
  b <- randomInt 0 9 ;;
  a <- randomInt 0 9 ;;
  ret (at_index HO a ++ " " ++ at_index TEN_DEM b ++ " " ++ at_index TEN c).

Definition sinh_timestamp (ngay_truoc : Z) : M string :=
  now <- time ;;
  h <- randomInt 0 23 ;;
  ret (format_tm (localtime (shifted_time now ngay_truoc h))).

(** The loop bodies.  Operands of a [<<] chain are taken left to right. *)
Definition driver_row (i : Z) : M DriverRow :=
  name <- sinh_ten ;;
  rating <- randomDouble d_3_5 d_5_0 ;;
  x <- randomDouble (of_int 0) (of_int 10) ;;
  y <- randomDouble (of_int 0) (of_int 10) ;;
  total <- randomInt 10 80 ;;
  ret (mk_driver i name (lam_tron rating) (lam_tron x) (lam_tron y) total).

Definition customer_row (i : Z) : M CustomerRow :=
  name <- sinh_ten ;;
  q <- randomInt 0 9 ;;
  x <- randomDouble (of_int 0) (of_int 10) ;;
  y <- randomDouble (of_int 0) (of_int 10) ;;
  ret (mk_customer i name (at_index QUAN q) (lam_tron x) (lam_tron y)).

Definition ride_row (i : Z) : M RideRow :=
  d <- randomDouble (of_int 2) (of_int 12) ;;
  let dist := lam_tron d in
  c <- randomInt 1 SO_KHACH_HANG ;;
  t <- randomInt 1 SO_TAI_XE ;;
  days <- randomInt 1 30 ;;
  stamp <- sinh_timestamp days ;;
  st <- randomInt 1 10 ;;
  ret (mk_ride i c t dist (d_mul dist (of_int 12000)) stamp (status_of st)).

Definition emit {A : Type} (f : ofstream) (row : Z -> M A) (line : A -> string)
    (i : Z) : M A :=
  r <- row i ;; put_line f (line r) ;;; ret r.

Definition main : M (Z * Generated) :=
  seed <- time ;;
  srand seed ;;;
  print (String "010" "") ;;;
  print ("========================================" ++ String "010" "") ;;;
  print ("   MINRIDE DATA GENERATOR" ++ String "010" "") ;;;
  print ("========================================" ++ String "010" (String "010" "")) ;;;
  let file_driver := THU_MUC_OUTPUT ++ "/drivers.csv" in
  f1 <- open file_driver ;;
  put_line f1 driver_header ;;;
  print ("Dang sinh " ++ show_int SO_TAI_XE ++ " tai xe..." ++ String "010" "") ;;;
  ds <- for_upto SO_TAI_XE (emit f1 driver_row driver_line) ;;
  close f1 ;;;
  print ("  -> " ++ file_driver ++ String "010" "") ;;;
  let file_customer := THU_MUC_OUTPUT ++ "/customers.csv" in
  f2 <- open file_customer ;;
  put_line f2 customer_header ;;;
  print ("Dang sinh " ++ show_int SO_KHACH_HANG ++ " khach hang..." ++ String "010" "") ;;;
  cs <- for_upto SO_KHACH_HANG (emit f2 customer_row customer_line) ;;
  close f2 ;;;
  print ("  -> " ++ file_customer ++ String "010" "") ;;;
  let file_ride := THU_MUC_OUTPUT ++ "/rides.csv" in
  f3 <- open file_ride ;;
  put_line f3 ride_header ;;;
  print ("Dang sinh " ++ show_int SO_CHUYEN_DI ++ " chuyen di..." ++ String "010" "") ;;;
  rs <- for_upto SO_CHUYEN_DI (emit f3 ride_row ride_line) ;;
  close f3 ;;;
  print ("  -> " ++ file_ride ++ String "010" "") ;;;
  print (String "010" "" ++ "========================================" ++ String "010" "") ;;;
  print ("   HOAN THANH!" ++ String "010" "") ;;;
  print ("========================================" ++ String "010" (String "010" "")) ;;;
  ret (0, mk_generated ds cs rs).

End Program.

(** The three blocks of [main] have one shape: open, header, announce, loop,
    close, report.  [csv_block] is that shape; [main_blocks] below shows
    [main] is three of them in a row. *)
Definition csv_block {A : Type} (can_open : string -> bool)
    (path header announce : string) (count : Z)
    (row : Z -> M A) (line : A -> string) : M (list A) :=
  f <- open can_open path ;;
  put_line f header ;;;
  print announce ;;;
  rows <- for_upto count (emit f row line) ;;
  close f ;;;
  print ("  -> " ++ path ++ String "010" "") ;;;
  ret rows.

Definition main_blocks (RAND_MAX : Z) (rand_seq clock : nat -> Z)
    (localtime : Z -> tm) (can_open : string -> bool) : M (Z * Generated) :=
  seed <- time clock ;;
  srand seed ;;;
  print (String "010" "") ;;;
  print ("========================================" ++ String "010" "") ;;;
  print ("   MINRIDE DATA GENERATOR" ++ String "010" "") ;;;
  print ("========================================" ++ String "010" (String "010" "")) ;;;
  ds <- csv_block can_open (THU_MUC_OUTPUT ++ "/drivers.csv") driver_header
          ("Dang sinh " ++ show_int SO_TAI_XE ++ " tai xe..." ++ String "010" "")
          SO_TAI_XE (driver_row RAND_MAX rand_seq) driver_line ;;
  cs <- csv_block can_open (THU_MUC_OUTPUT ++ "/customers.csv") customer_header
          ("Dang sinh " ++ show_int SO_KHACH_HANG ++ " khach hang..." ++ String "010" "")
          SO_KHACH_HANG (customer_row RAND_MAX rand_seq) customer_line ;;
  rs <- csv_block can_open (THU_MUC_OUTPUT ++ "/rides.csv") ride_header
          ("Dang sinh " ++ show_int SO_CHUYEN_DI ++ " chuyen di..." ++ String "010" "")
          SO_CHUYEN_DI (ride_row RAND_MAX rand_seq clock localtime) ride_line ;;
  print (String "010" "" ++ "========================================" ++ String "010" "") ;;;
  print ("   HOAN THANH!" ++ String "010" "") ;;;
  print ("========================================" ++ String "010" (String "010" "")) ;;;
  ret (0, mk_generated ds cs rs).

(** The state once the opening banner is printed. *)
Definition after_banner (clock : nat -> Z) (s : Proc) : Proc :=
  snd (print ("========================================" ++ String "010" (String "010" ""))
    (snd (print ("   MINRIDE DATA GENERATOR" ++ String "010" "")
      (snd (print ("========================================" ++ String "010" "")
        (snd (print (String "010" "")
          (snd (srand (fst (time clock s)) (snd (time clock s))))))))))).

(** The state once the closing banner is printed. *)
Definition after_closing (s : Proc) : Proc :=
  snd (print ("========================================" ++ String "010" (String "010" ""))
    (snd (print ("   HOAN THANH!" ++ String "010" "")
      (snd (print (String "010" "" ++ "========================================" ++ String "010" "")
        s))))).

(** The state a process starts in, over the files already on disk. *)
Definition start (disk : FileSystem) : Proc := mk_proc 0 0 [] disk.

Definition data_lines (file : option (list string)) : option nat :=
  match file with
  | Some (_ :: rows) => Some (List.length rows)
  | _ => None
  end.

(** ** A run of the program *)

(** Everything a run depends on. *)
Record World : Type := mk_world {
  w_RAND_MAX : Z;
  w_rand : nat -> Z;
  w_clock : nat -> Z;
  w_localtime : Z -> tm;
  w_can_open : string -> bool;
  w_disk : FileSystem
}.

Definition run (w : World) : (Z * Generated) * Proc :=
  main (w_RAND_MAX w) (w_rand w) (w_clock w) (w_localtime w) (w_can_open w)
       (start (w_disk w)).

Definition exit_code (w : World) : Z := fst (fst (run w)).
Definition generated (w : World) : Generated := snd (fst (run w)).
Definition files (w : World) : FileSystem := fs (snd (run w)).
Definition console (w : World) : list string := cout (snd (run w)).

(** The library contract of [rand()]: [RAND_MAX] is an [int] of at least
    32767 and every result lies in [0, RAND_MAX]. *)
Definition rand_ok (w : World) : Prop :=
  32767 <= w_RAND_MAX w <= INT_MAX /\
  forall k, 0 <= w_rand w k <= w_RAND_MAX w.

(** The three output files. *)
Inductive CsvFile : Set := Drivers | Customers | Rides.

Definition csv_path (f : CsvFile) : string :=
  match f with
  | Drivers => THU_MUC_OUTPUT ++ "/drivers.csv"
  | Customers => THU_MUC_OUTPUT ++ "/customers.csv"
  | Rides => THU_MUC_OUTPUT ++ "/rides.csv"
  end.

Definition csv_count (f : CsvFile) : Z :=
  match f with
  | Drivers => SO_TAI_XE
  | Customers => SO_KHACH_HANG
  | Rides => SO_CHUYEN_DI
  end.

Definition csv_header (f : CsvFile) : string :=
  match f with
  | Drivers => driver_header
  | Customers => customer_header
  | Rides => ride_header
  end.

Definition csv_lines (f : CsvFile) (g : Generated) : list string :=
  match f with
  | Drivers => map driver_line (drivers g)
  | Customers => map customer_line (customers g)
  | Rides => map ride_line (rides g)
  end.

(** ** Definitions used by the proofs *)

(** The double [lam_tron] returns for the integer [K = round(x * 10)]: the one
    nearest to [K / 10]. *)
Definition d_tenth (K : Z) : double := d_div (of_int K) (of_int 10).

(** A shift record read as one integer: four times the mantissa plus the
    round and sticky bits. *)
Definition kappa (mrs : shr_record) : Z :=
  4 * shr_m mrs + (if shr_r mrs then 2 else 0) + (if shr_s mrs then 1 else 0).

Definition loc_code (l : location) : Z :=
  match l with
  | loc_Exact => 0
  | loc_Inexact Lt => 1
  | loc_Inexact Eq => 2
  | loc_Inexact Gt => 3
  end.

(** [on_grid b L H x]: the double [x] is non-negative, its exponent is at most
    [b] and its value lies between [L * 2^b] and [H * 2^b]. *)
Definition on_grid (b L H : Z) (x : double) : Prop :=
  match x with
  | S754_zero s => s = false /\ L <= 0 <= H
  | S754_finite s m e =>
      s = false /\ e <= b /\ L * 2 ^ (b - e) <= Zpos m <= H * 2 ^ (b - e)
  | _ => False
  end.


Definition on_gridb (b L H : Z) (x : double) : bool :=
  match x with
  | S754_zero s => negb s && (L <=? 0) && (0 <=? H)
  | S754_finite s m e =>
      negb s && (e <=? b) && (L * 2 ^ (b - e) <=? Zpos m) && (Zpos m <=? H * 2 ^ (b - e))
  | _ => false
  end.

(** The integers [lo, lo+1, ..., lo+n-1]. *)
Definition Zrange (lo : Z) (n : nat) : list Z := map (fun k => lo + Z.of_nat k) (seq 0 n).

(** How many of the [RAND_MAX + 1] possible results of [rand()] satisfy [P]. *)
Definition count_draws (RAND_MAX : Z) (P : Z -> bool) : nat :=
  List.length (filter P (Zrange 0 (Z.to_nat (RAND_MAX + 1)))).

(** Structural equality of doubles, decided. *)
Definition d_same (x y : double) : bool :=
  match x, y with
  | S754_zero a, S754_zero b => Bool.eqb a b
  | S754_infinity a, S754_infinity b => Bool.eqb a b
  | S754_nan, S754_nan => true
  | S754_finite a m e, S754_finite b n f => Bool.eqb a b && Pos.eqb m n && Z.eqb e f
  | _, _ => false
  end.

(** Checks run on every whole number of tenths [K] the program can reach:
    what [K / 10] prints as, what the fare prints as, what [round] makes of
    the fare. *)
Definition tenth_printed (K : Z) : bool :=
  match fixed_field 1 (d_tenth K) with Some n => n =? K | None => false end.

Definition tenth_within (lo hi : Q) (K : Z) : bool := d_betweenb lo hi (d_tenth K).

Definition fare_of (dist : double) : double := d_mul dist (of_int 12000).

Definition fare_printed (K : Z) : bool :=
  match fixed_field 0 (fare_of (d_tenth K)) with
  | Some n => n =? 1200 * K
  | None => false
  end.

Definition fare_rounded (K : Z) : bool :=
  d_same (d_round (fare_of (d_tenth K))) (of_int (1200 * K)).

(** ** Timestamps as text *)

Definition is_digit (c : ascii) : bool :=
  (48 <=? nat_of_ascii c)%nat && (nat_of_ascii c <=? 57)%nat.

(** [matches pat s]: [s] has the shape [pat], where the letter [d] of the
    pattern stands for any decimal digit and every other character for
    itself. *)
Fixpoint matches (pat s : string) : bool :=
  match pat, s with
  | EmptyString, EmptyString => true
  | String p pat', String c s' =>
      (if Ascii.eqb p "d" then is_digit c else Ascii.eqb p c) && matches pat' s'
  | _, _ => false
  end.

Definition is_timestamp (s : string) : bool := matches "dddd-dd-ddTdd:dd:dd" s.

Definition year_shape (y : Z) : bool := matches "dddd" (show_int y).
Definition field_shape (n : Z) : bool := matches "dd" (show_int_width 2 n).

(** The ranges the C standard gives the fields of a [struct tm], with a year
    of four digits. *)
Definition tm_in_range (t : tm) : Prop :=
  1000 <= 1900 + tm_year t <= 9999 /\ 0 <= tm_mon t <= 11 /\
  1 <= tm_mday t <= 31 /\ 0 <= tm_hour t <= 23 /\
  0 <= tm_min t <= 59 /\ 0 <= tm_sec t <= 60.

(** A calendar conversion to run the program with: [localtime] in the UTC
    time zone (proleptic Gregorian calendar, days counted from 1970-01-01). *)
Definition civil_from_days (z : Z) : Z * Z * Z :=
  let z := z + 719468 in
  let era := z / 146097 in
  let doe := z - era * 146097 in
  let yoe := (doe - doe / 1460 + doe / 36524 - doe / 146096) / 365 in
  let doy := doe - (365 * yoe + yoe / 4 - yoe / 100) in
  let mp := (5 * doy + 2) / 153 in
  let d := doy - (153 * mp + 2) / 5 + 1 in
  let m := if mp <? 10 then mp + 3 else mp - 9 in
  (if m <=? 2 then yoe + era * 400 + 1 else yoe + era * 400, m, d).

Definition utc_time (t : Z) : tm :=
  let secs := t mod 86400 in
  let '(y, m, d) := civil_from_days (t / 86400) in
  mk_tm (y - 1900) (m - 1) d (secs / 3600) (secs mod 3600 / 60) (secs mod 60).

(** A double "rounded to one decimal": it is the double nearest to [K / 10]
    for a whole [K], and [fixed << setprecision(1)] prints it as [K / 10]. *)
Definition one_decimal (x : double) : Prop :=
  exists K : Z, x = d_tenth K /\ fixed_field 1 x = Some K.

(** Two worlds to run the program in: glibc's [RAND_MAX], a linear
    congruential sequence of draws, a clock standing at 2027-01-15 08:00:00, UTC
    calendar time and an empty disk; in the first the output directory
    exists, in the second it does not. *)
Definition sample_draws (k : nat) : Z :=
  (Z.of_nat k * 1103515245 + 12345) mod 2147483648.

Definition sample_world : World :=
  mk_world 2147483647 sample_draws (fun _ => 1800000000) utc_time
           (fun _ => true) (fun _ => None).

Definition no_directory_world : World :=
  mk_world 2147483647 sample_draws (fun _ => 1800000000) utc_time
           (fun _ => false) (fun _ => None).

(** A generator keeps the files when it only draws numbers and reads the
    clock. *)
Definition keeps_fs {A : Type} (row : Z -> M A) : Prop :=
  forall i s, fs (snd (row i s)) = fs s.

(** Everything the claims say of one driver row, gathered. *)
Definition driver_row_ok (d : DriverRow) : Prop :=
  d_between (7 # 2) 5 (dr_rating d) /\
  d_between 0 10 (dr_x d) /\ d_between 0 10 (dr_y d) /\
  10 <= dr_total d <= 80 /\
  one_decimal (dr_rating d) /\ one_decimal (dr_x d) /\ one_decimal (dr_y d).

(** Everything the claims say of one ride row, gathered. *)
Definition ride_row_shape (r : RideRow) : Prop :=
  exists K draw,
    20 <= K <= 120 /\
    ri_distance r = d_tenth K /\
    ri_fare r = d_mul (ri_distance r) (of_int 12000) /\
    1 <= ri_customer r <= SO_KHACH_HANG /\
    1 <= ri_driver r <= SO_TAI_XE /\
    1 <= draw <= 10 /\ ri_status r = status_of draw.

Definition stamp_differs (text : string) (now d h : Z) : bool :=
  negb (String.eqb text (format_tm (utc_time (now - d * 86400 - h * 3600)))).

(** [text] is the formatted local time of [instant], and has the timestamp
    shape when [localtime] returns fields in range. *)
Definition stamp_shape (lt : Z -> tm) (instant : Z) (text : string) : Prop :=
  text = format_tm (lt instant) /\
  (tm_in_range (lt instant) -> is_timestamp text = true).

(** ** Definitions for the further properties *)

(** A name as [sinh_ten] builds it: one entry of each table, joined by single
    spaces. *)
Definition name_ok (name : string) : Prop :=
  exists ho dem ten,
    In ho HO /\ In dem TEN_DEM /\ In ten TEN /\
    name = ho ++ " " ++ dem ++ " " ++ ten.

(** How often the character [c] occurs in a text. *)
Fixpoint count_char (c : ascii) (s : string) : nat :=
  match s with
  | EmptyString => O
  | String a s' => ((if Ascii.eqb a c then 1 else 0) + count_char c s')%nat
  end.

(** The two characters that would break a CSV line: the field separator and
    the line terminator. *)
Definition csv_special (c : ascii) : Prop := c = ","%char \/ c = "010"%char.

Definition csv_commas (f : CsvFile) : nat :=
  match f with Drivers => 5 | Customers => 4 | Rides => 6 end.

(** The fields of a CSV line: the text between the commas. *)
Fixpoint csv_fields (s : string) : list string :=
  match s with
  | EmptyString => [EmptyString]
  | String c s' =>
      if Ascii.eqb c "," then EmptyString :: csv_fields s'
      else match csv_fields s' with
           | f :: fs => String c f :: fs
           | [] => [String c EmptyString]
           end
  end.

(** The column of a name in a header, counted from 0. *)
Fixpoint position (name : string) (l : list string) : option nat :=
  match l with
  | [] => None
  | h :: t => if String.eqb h name then Some O else option_map S (position name t)
  end.

(** The field of a line under the column called [name] in [header]. *)
Definition field_of (header name line : string) : option string :=
  match position name (csv_fields header) with
  | Some n => nth_error (csv_fields line) n
  | None => None
  end.

(** The part of the state that does not depend on the file system. *)
Definition same_counters (s s' : Proc) : Prop :=
  rand_calls s = rand_calls s' /\ time_calls s = time_calls s'.

Definition lam_tron_fixed (K : Z) : bool := d_same (lam_tron (d_tenth K)) (d_tenth K).

(** A generator that reads only the counters: what it produces, and the
    counters it leaves, are the same from two states with the same counters. *)
Definition counters_only {A : Type} (row : Z -> M A) : Prop :=
  forall i s s', same_counters s s' ->
    fst (row i s) = fst (row i s') /\ same_counters (snd (row i s)) (snd (row i s')).

(** The text of [K] tenths with one digit after the point, and the checks
    that the program's doubles print as such. *)
Definition tenths_text (K : Z) : string := show_int (K / 10) ++ "." ++ show_int (K mod 10).

Definition tenth_text_ok (K : Z) : bool :=
  String.eqb (show_fixed 1 (d_tenth K)) (tenths_text K).

Definition fare_text_ok (K : Z) : bool :=
  String.eqb (show_fixed 0 (fare_of (d_tenth K))) (show_int (1200 * K)).

(* ================================================================== *)
(** * Part II: correctly rounded arithmetic stays on the grid *)
(* ================================================================== *)

Lemma kappa_of_loc m l : kappa (shr_record_of_loc m l) = 4 * m + loc_code l.
Proof. destruct l as [|[| |]]; unfold kappa; simpl; lia. Qed.

Lemma loc_code_range l : 0 <= loc_code l <= 3.
Proof. destruct l as [|[| |]]; simpl; lia. Qed.

Lemma shr_1_nonneg mrs : 0 <= shr_m mrs -> 0 <= shr_m (shr_1 mrs).
Proof.
  destruct mrs as [m r s]; simpl.
  destruct m as [|[p|p|]|p]; simpl; lia.
Qed.

Lemma shr_1_le mrs C :
  0 <= shr_m mrs -> kappa mrs <= 4 * (2 * C) -> kappa (shr_1 mrs) <= 4 * C.
Proof.
  destruct mrs as [m r s]; unfold kappa.
  destruct m as [|[p|p|]|p]; destruct r, s;
    cbn [shr_1 shr_m shr_r shr_s orb];
    try (pose proof (Pos2Z.inj_xO p)); try (pose proof (Pos2Z.inj_xI p)); lia.
Qed.

Lemma shr_1_ge mrs C :
  0 <= shr_m mrs -> 4 * (2 * C) <= kappa mrs -> 4 * C <= kappa (shr_1 mrs).
Proof.
  destruct mrs as [m r s]; unfold kappa.
  destruct m as [|[p|p|]|p]; destruct r, s;
    cbn [shr_1 shr_m shr_r shr_s orb];
    try (pose proof (Pos2Z.inj_xO p)); try (pose proof (Pos2Z.inj_xI p)); lia.
Qed.

Lemma pow2_xO p : 2 ^ Zpos p~0 = 2 ^ Zpos p * 2 ^ Zpos p.
Proof. rewrite <- Z.pow_add_r by lia. f_equal. lia. Qed.

Lemma pow2_xI p : 2 ^ Zpos p~1 = 2 * (2 ^ Zpos p * 2 ^ Zpos p).
Proof.
  rewrite <- Z.pow_add_r by lia. rewrite <- Z.pow_succ_r by lia. f_equal. lia.
Qed.

Lemma iter_shr_1 p : forall mrs,
  0 <= shr_m mrs ->
  0 <= shr_m (iter_pos shr_1 p mrs) /\
  (forall C, kappa mrs <= 4 * (C * 2 ^ Zpos p) -> kappa (iter_pos shr_1 p mrs) <= 4 * C) /\
  (forall C, 4 * (C * 2 ^ Zpos p) <= kappa mrs -> 4 * C <= kappa (iter_pos shr_1 p mrs)).
Proof.
  induction p as [p IH|p IH|]; intros mrs Hm; cbn [iter_pos].
  - pose proof (shr_1_nonneg _ Hm) as H1.
    destruct (IH _ H1) as (N1 & U1 & L1).
    destruct (IH _ N1) as (N2 & U2 & L2).
    split; [exact N2|].
    split; intros C HC; rewrite pow2_xI in HC.
    + apply U2, U1. apply shr_1_le; [assumption|]. lia.
    + apply L2, L1. apply shr_1_ge; [assumption|]. lia.
  - destruct (IH _ Hm) as (N1 & U1 & L1).
    destruct (IH _ N1) as (N2 & U2 & L2).
    split; [exact N2|].
    split; intros C HC; rewrite pow2_xO in HC.
    + apply U2, U1. lia.
    + apply L2, L1. lia.
  - split; [apply shr_1_nonneg; assumption|].
    split; intros C HC; change (2 ^ 1) with 2 in HC.
    + apply shr_1_le; [assumption|lia].
    + apply shr_1_ge; [assumption|lia].
Qed.

Lemma digits2_bounds p :
  2 ^ (Zpos (digits2_pos p) - 1) <= Zpos p < 2 ^ Zpos (digits2_pos p).
Proof.
  induction p as [p IH|p IH|]; cbn [digits2_pos].
  - rewrite Pos2Z.inj_succ.
    replace (Z.succ (Zpos (digits2_pos p)) - 1) with (Z.succ (Zpos (digits2_pos p) - 1)) by lia.
    rewrite !Z.pow_succ_r by lia. pose proof (Pos2Z.inj_xI p). lia.
  - rewrite Pos2Z.inj_succ.
    replace (Z.succ (Zpos (digits2_pos p)) - 1) with (Z.succ (Zpos (digits2_pos p) - 1)) by lia.
    rewrite !Z.pow_succ_r by lia. pose proof (Pos2Z.inj_xO p). lia.
  - simpl. lia.
Qed.

Lemma Zdigits2_le m k : 0 <= m -> 0 <= k -> m < 2 ^ k -> Zdigits2 m <= k.
Proof.
  intros Hm Hk Hlt. destruct m as [|p|p]; cbn [Zdigits2]; try lia.
  pose proof (digits2_bounds p) as [Hlo _].
  assert (2 ^ (Zpos (digits2_pos p) - 1) < 2 ^ k) by lia.
  apply Z.pow_lt_mono_r_iff in H; lia.
Qed.

Lemma fexp_eq x : fexp prec emax x = Z.max (x - 53) (-1074).
Proof. reflexivity. Qed.

Lemma pow2_split a c : 0 <= a -> 0 <= c -> 2 ^ (a + c) = 2 ^ a * 2 ^ c.
Proof. intros. apply Z.pow_add_r; assumption. Qed.

Lemma shr_fexp_grid m l e b L H :
  0 <= m -> e <= b -> -1074 <= b -> 0 <= L -> H < 2 ^ 53 ->
  4 * (L * 2 ^ (b - e)) <= 4 * m + loc_code l <= 4 * (H * 2 ^ (b - e)) ->
  exists mrs' e',
    shr_fexp prec emax m e l = (mrs', e') /\ e <= e' <= b /\ 0 <= shr_m mrs' /\
    4 * (L * 2 ^ (b - e')) <= kappa mrs' <= 4 * (H * 2 ^ (b - e')).
Proof.
  intros Hm Heb Hb HL HH [Hlo Hhi].
  pose proof (loc_code_range l) as Hl.
  assert (Hp : 0 < 2 ^ (b - e)) by (apply Z.pow_pos_nonneg; lia).
  assert (Hd : Zdigits2 m <= 53 + (b - e)).
  { apply Zdigits2_le; try lia.
    rewrite pow2_split by lia. nia. }
  unfold shr_fexp, shr. rewrite fexp_eq.
  destruct (Z.max (Zdigits2 m + e - 53) (-1074) - e) as [|p|p] eqn:En.
  - eexists _, _. split; [reflexivity|]. rewrite kappa_of_loc.
    split; [lia|]. split; [destruct l as [|[| |]]; simpl; lia|]. lia.
  - set (e' := e + Zpos p).
    assert (He' : e' <= b) by (unfold e'; lia).
    destruct (iter_shr_1 p (shr_record_of_loc m l)) as (N & U & Lw).
    { destruct l as [|[| |]]; simpl; lia. }
    eexists _, _. split; [reflexivity|]. fold e'.
    split; [unfold e'; lia|]. split; [exact N|].
    assert (E : forall C, C * 2 ^ (b - e) = C * 2 ^ (b - e') * 2 ^ Zpos p).
    { intro C. replace (b - e) with ((b - e') + Zpos p) by (unfold e'; lia).
      rewrite pow2_split by lia. ring. }
    split.
    + apply Lw. rewrite kappa_of_loc, <- E. lia.
    + apply U. rewrite kappa_of_loc, <- E. lia.
  - eexists _, _. split; [reflexivity|]. rewrite kappa_of_loc.
    split; [lia|]. split; [destruct l as [|[| |]]; simpl; lia|]. lia.
Qed.

Lemma round_nearest_even_grid mrs C1 C2 :
  4 * C1 <= kappa mrs <= 4 * C2 ->
  C1 <= round_nearest_even (shr_m mrs) (loc_of_shr_record mrs) <= C2.
Proof.
  destruct mrs as [m r s].
  destruct r, s; cbv [kappa shr_m shr_r shr_s loc_of_shr_record round_nearest_even].
  all: try (destruct (Z.even m)).
  all: lia.
Qed.

Lemma binary_round_aux_grid m l e b L H :
  0 <= m -> e <= b -> -1074 <= b <= 971 -> 0 <= L -> H < 2 ^ 53 ->
  4 * (L * 2 ^ (b - e)) <= 4 * m + loc_code l <= 4 * (H * 2 ^ (b - e)) ->
  on_grid b L H (binary_round_aux prec emax false m e l).
Proof.
  intros Hm Heb Hb HL HH Hk.
  destruct (shr_fexp_grid m l e b L H) as (mrs1 & e1 & E1 & He1 & N1 & K1);
    try assumption; try lia.
  pose proof (round_nearest_even_grid mrs1 _ _ K1) as R1.
  set (m1 := round_nearest_even (shr_m mrs1) (loc_of_shr_record mrs1)) in *.
  assert (P1 : 0 < 2 ^ (b - e1)) by (apply Z.pow_pos_nonneg; lia).
  destruct (shr_fexp_grid m1 loc_Exact e1 b L H) as (mrs2 & e2 & E2 & He2 & N2 & K2);
    try assumption; try lia.
  { cbn [loc_code]. lia. }
  unfold binary_round_aux. rewrite E1. fold m1. rewrite E2.
  assert (B2 : L * 2 ^ (b - e2) <= shr_m mrs2 <= H * 2 ^ (b - e2)).
  { unfold kappa in K2. destruct (shr_r mrs2), (shr_s mrs2); lia. }
  assert (P2 : 0 < 2 ^ (b - e2)) by (apply Z.pow_pos_nonneg; lia).
  destruct (shr_m mrs2) as [|p|p] eqn:Em2.
  - cbn [on_grid]. split; [reflexivity|].
    assert (0 <= L * 2 ^ (b - e2)) by (apply Z.mul_nonneg_nonneg; lia). nia.
  - replace (e2 <=? emax - prec) with true.
    + cbn [on_grid]. split; [reflexivity|]. split; [lia|]. exact B2.
    + symmetry. apply Z.leb_le. unfold emax, prec. lia.
  - lia.
Qed.


Lemma iter_xO_pow m d : Zpos (Pos.iter xO m d) = Zpos m * 2 ^ Zpos d.
Proof.
  induction d as [|d IH] using Pos.peano_ind.
  - cbn [Pos.iter]. rewrite Pos2Z.inj_xO. change (2 ^ 1) with 2. lia.
  - rewrite Pos.iter_succ, Pos2Z.inj_xO, IH, Pos2Z.inj_succ, Z.pow_succ_r by lia. ring.
Qed.

Lemma shl_align_spec mx ex ex' :
  exists mz ez, shl_align mx ex ex' = (mz, ez) /\ ez <= ex /\
                Zpos mz = Zpos mx * 2 ^ (ex - ez).
Proof.
  unfold shl_align. destruct (ex' - ex) as [|d|d] eqn:E.
  - exists mx, ex. rewrite Z.sub_diag. split; [reflexivity|]. lia.
  - exists mx, ex. rewrite Z.sub_diag. split; [reflexivity|]. lia.
  - eexists _, _. split; [reflexivity|]. split; [lia|].
    rewrite iter_xO_pow. replace (ex - ex') with (Zpos d) by lia. reflexivity.
Qed.

Lemma binary_round_grid m e b L H :
  e <= b -> -1074 <= b <= 971 -> 0 <= L -> H < 2 ^ 53 ->
  L * 2 ^ (b - e) <= Zpos m <= H * 2 ^ (b - e) ->
  on_grid b L H (binary_round prec emax false m e).
Proof.
  intros Heb Hb HL HH Hm. unfold binary_round.
  destruct (shl_align_spec m e (fexp prec emax (Zpos (digits2_pos m) + e)))
    as (mz & ez & E & Hez & Hmz).
  rewrite E. apply binary_round_aux_grid; try lia.
  cbn [loc_code]. rewrite Hmz.
  replace (b - ez) with ((b - e) + (e - ez)) by lia.
  rewrite pow2_split by lia.
  assert (0 < 2 ^ (e - ez)) by (apply Z.pow_pos_nonneg; lia).
  nia.
Qed.

Lemma of_int_grid r : 0 <= r < 2 ^ 53 -> on_grid 0 r r (of_int r).
Proof.
  intros Hr. unfold of_int, binary_normalize. destruct r as [|p|p]; try lia.
  - cbv [on_grid]. repeat split; lia.
  - apply binary_round_grid; lia.
Qed.

Lemma d_mul_grid b1 L1 H1 b2 L2 H2 x y :
  on_grid b1 L1 H1 x -> on_grid b2 L2 H2 y ->
  0 <= L1 -> 0 <= L2 -> H1 * H2 < 2 ^ 53 -> -1074 <= b1 + b2 <= 971 ->
  on_grid (b1 + b2) (L1 * L2) (H1 * H2) (d_mul x y).
Proof.
  intros Hx Hy HL1 HL2 HH Hb. unfold d_mul.
  destruct x as [sx|sx| |sx mx ex]; destruct y as [sy|sy| |sy my ey];
    cbn [on_grid] in Hx, Hy;
    try contradiction.
  - destruct Hx as (-> & Hx), Hy as (-> & Hy). cbn. split; [reflexivity|]. nia.
  - destruct Hx as (-> & Hx), Hy as (-> & Hey & Hy). cbn. split; [reflexivity|].
    assert (0 < 2 ^ (b2 - ey)) by (apply Z.pow_pos_nonneg; lia). nia.
  - destruct Hx as (-> & Hex & Hx), Hy as (-> & Hy). cbn. split; [reflexivity|].
    assert (0 < 2 ^ (b1 - ex)) by (apply Z.pow_pos_nonneg; lia). nia.
  - destruct Hx as (-> & Hex & Hx), Hy as (-> & Hey & Hy).
    cbn [SFmul xorb]. apply binary_round_aux_grid; try lia.
    cbn [loc_code]. rewrite Pos2Z.inj_mul.
    replace (b1 + b2 - (ex + ey)) with ((b1 - ex) + (b2 - ey)) by lia.
    rewrite pow2_split by lia.
    assert (0 < 2 ^ (b1 - ex)) by (apply Z.pow_pos_nonneg; lia).
    assert (0 < 2 ^ (b2 - ey)) by (apply Z.pow_pos_nonneg; lia).
    split.
    + assert (L1 * 2 ^ (b1 - ex) * (L2 * 2 ^ (b2 - ey)) <= Zpos mx * Zpos my).
      { apply Z.mul_le_mono_nonneg; try lia; apply Z.mul_nonneg_nonneg; lia. }
      lia.
    + assert (Zpos mx * Zpos my <= H1 * 2 ^ (b1 - ex) * (H2 * 2 ^ (b2 - ey))).
      { apply Z.mul_le_mono_nonneg; lia. }
      lia.
Qed.

Lemma shl_align_le mx ex ex' :
  ex' <= ex ->
  exists mz, shl_align mx ex ex' = (mz, ex') /\ Zpos mz = Zpos mx * 2 ^ (ex - ex').
Proof.
  intros Hle. unfold shl_align. destruct (ex' - ex) as [|d|d] eqn:E; try lia.
  - assert (ex' = ex) by lia. subst. exists mx. rewrite Z.sub_diag.
    split; [reflexivity|]. lia.
  - eexists. split; [reflexivity|].
    rewrite iter_xO_pow. replace (ex - ex') with (Zpos d) by lia. reflexivity.
Qed.

Lemma grid_scale C b e e' :
  e' <= e -> e <= b -> C * 2 ^ (b - e) * 2 ^ (e - e') = C * 2 ^ (b - e').
Proof.
  intros. replace (b - e') with ((b - e) + (e - e')) by lia.
  rewrite pow2_split by lia. ring.
Qed.

Lemma d_add_grid b L1 H1 L2 H2 x y :
  on_grid b L1 H1 x -> on_grid b L2 H2 y ->
  0 <= L1 -> 0 <= L2 -> H1 + H2 < 2 ^ 53 -> -1074 <= b <= 971 ->
  on_grid b (L1 + L2) (H1 + H2) (d_add x y).
Proof.
  intros Hx Hy HL1 HL2 HH Hb. unfold d_add.
  destruct x as [sx|sx| |sx mx ex]; destruct y as [sy|sy| |sy my ey];
    cbn [on_grid] in Hx, Hy; try contradiction.
  - destruct Hx as (-> & Hx), Hy as (-> & Hy). cbn. split; [reflexivity|]. lia.
  - destruct Hx as (-> & Hx), Hy as (-> & Hey & Hy). cbn [SFadd on_grid].
    split; [reflexivity|]. split; [assumption|].
    assert (0 < 2 ^ (b - ey)) by (apply Z.pow_pos_nonneg; lia). nia.
  - destruct Hx as (-> & Hex & Hx), Hy as (-> & Hy). cbn [SFadd on_grid].
    split; [reflexivity|]. split; [assumption|].
    assert (0 < 2 ^ (b - ex)) by (apply Z.pow_pos_nonneg; lia). nia.
  - destruct Hx as (-> & Hex & Hx), Hy as (-> & Hey & Hy).
    cbn [SFadd]. set (ez := Z.min ex ey).
    destruct (shl_align_le mx ex ez) as (ax & Ex & Vx); [unfold ez; lia|].
    destruct (shl_align_le my ey ez) as (ay & Ey & Vy); [unfold ez; lia|].
    rewrite Ex, Ey. cbn [fst cond_Zopp Z.add binary_normalize].
    apply binary_round_grid; try lia; try (unfold ez; lia).
    rewrite Pos2Z.inj_add, Vx, Vy.
    rewrite !Z.mul_add_distr_r.
    rewrite <- (grid_scale L1 b ex ez), <- (grid_scale L2 b ey ez),
            <- (grid_scale H1 b ex ez), <- (grid_scale H2 b ey ez)
      by (unfold ez; lia).
    assert (0 < 2 ^ (ex - ez)) by (apply Z.pow_pos_nonneg; unfold ez; lia).
    assert (0 < 2 ^ (ey - ez)) by (apply Z.pow_pos_nonneg; unfold ez; lia).
    nia.
Qed.

Lemma new_location_zero n : new_location n 0 = loc_Exact.
Proof. unfold new_location. destruct (Z.even n); reflexivity. Qed.

Lemma div_eucl_spec a b q r :
  0 < b -> Z.div_eucl a b = (q, r) -> a = q * b + r /\ 0 <= r < b.
Proof.
  intros Hb E.
  pose proof (Z.div_mod a b ltac:(lia)) as H1.
  pose proof (Z.mod_pos_bound a b Hb) as H2.
  unfold Z.div, Z.modulo in H1, H2. rewrite E in H1, H2. lia.
Qed.

Lemma d_div_grid r R L x y :
  on_grid 0 r r x -> on_grid 0 R R y -> 0 <= L -> L * R <= r <= R -> 0 < R ->
  on_grid 0 L 1 (d_div x y).
Proof.
  intros Hx Hy HL Hr HR. unfold d_div.
  destruct x as [sx|sx| |sx mx ex]; destruct y as [sy|sy| |sy my ey];
    cbn [on_grid] in Hx, Hy; try contradiction.
  - lia.
  - destruct Hx as (-> & Hx), Hy as (-> & Hey & Hy). cbn. split; [reflexivity|nia].
  - lia.
  - destruct Hx as (-> & Hex & Hx), Hy as (-> & Hey & Hy).
    rewrite Z.sub_0_l in Hx, Hy.
    assert (Hmx : Zpos mx = r * 2 ^ (- ex)) by lia.
    assert (Hmy : Zpos my = R * 2 ^ (- ey)) by lia.
    clear Hx Hy.
    assert (Px : 0 < 2 ^ (- ex)) by (apply Z.pow_pos_nonneg; lia).
    assert (Py : 0 < 2 ^ (- ey)) by (apply Z.pow_pos_nonneg; lia).
    cbn [SFdiv xorb]. unfold SFdiv_core_binary. cbn [Zdigits2].
    set (d1 := Zpos (digits2_pos mx)). set (d2 := Zpos (digits2_pos my)).
    pose proof (digits2_bounds mx) as [Dx _]. fold d1 in Dx.
    pose proof (digits2_bounds my) as [_ Dy]. fold d2 in Dy.
    assert (Hd : d1 + ex - (d2 + ey) <= 0).
    { assert (Hlt : 2 ^ (d1 - 1) * 2 ^ (- ey) < 2 ^ d2 * 2 ^ (- ex)) by nia.
      rewrite <- !pow2_split in Hlt by (unfold d1, d2; lia).
      apply Z.pow_lt_mono_r_iff in Hlt; unfold d1, d2 in *; lia. }
    rewrite fexp_eq.
    set (e' := Z.min (Z.max (d1 + ex - (d2 + ey) - 53) (-1074)) (ex - ey)).
    assert (He' : e' <= 0) by (unfold e'; lia).
    assert (Hs : 0 <= ex - ey - e') by (unfold e'; lia).
    set (m' := match ex - ey - e' with
               | 0 => Zpos mx | Zpos _ => Z.shiftl (Zpos mx) (ex - ey - e') | Zneg _ => 0
               end).
    assert (Hm' : m' = Zpos mx * 2 ^ (ex - ey - e')).
    { unfold m'. destruct (ex - ey - e') as [|s|s] eqn:Es; try lia.
      rewrite Z.shiftl_mul_pow2 by lia. reflexivity. }
    destruct (Z.div_eucl m' (Zpos my)) as [q rm] eqn:Ediv.
    apply div_eucl_spec in Ediv; [|lia]. destruct Ediv as [Eq Hrm].
    assert (Ps : 0 < 2 ^ (ex - ey - e')) by (apply Z.pow_pos_nonneg; lia).
    assert (Hq0 : 0 <= q) by nia.
    set (P := 2 ^ (- ey - e')).
    assert (PP : 0 < P) by (apply Z.pow_pos_nonneg; lia).
    assert (E1 : m' = r * P).
    { rewrite Hm', Hmx. unfold P.
      replace (- ey - e') with (- ex + (ex - ey - e')) by lia.
      rewrite pow2_split by lia. ring. }
    assert (E2 : 2 ^ (- e') * Zpos my = R * P).
    { rewrite Hmy. unfold P.
      replace (- ey - e') with (- e' + - ey) by lia.
      rewrite pow2_split by lia. ring. }
    assert (Hle : q * Zpos my + rm <= 2 ^ (- e') * Zpos my) by nia.
    apply binary_round_aux_grid; try lia.
    rewrite Z.sub_0_l, Z.mul_1_l.
    pose proof (loc_code_range (new_location (Zpos my) rm)) as Hc.
    assert (Pe : 0 < 2 ^ (- e')) by (apply Z.pow_pos_nonneg; lia).
    split.
    { assert (L * 2 ^ (- e') <= q); [|lia].
      assert (Hge : L * 2 ^ (- e') * Zpos my <= q * Zpos my + rm) by nia.
      nia. }
    destruct (Z.eq_dec rm 0) as [->|Hnz].
    + rewrite new_location_zero. cbn [loc_code]. nia.
    + assert (q < 2 ^ (- e')) by nia. lia.
Qed.

Lemma d_div_unit r R x y :
  on_grid 0 r r x -> on_grid 0 R R y -> 0 <= r <= R -> 0 < R ->
  on_grid 0 0 1 (d_div x y).
Proof. intros Hx Hy Hr HR. apply (d_div_grid r R 0); try assumption; lia. Qed.

Lemma d_round_grid L H x :
  on_grid 0 L H x -> 0 <= L ->
  exists K, L <= K <= H /\ d_round x = of_int K.
Proof.
  intros Hx HL.
  destruct x as [s|s| |s m e]; cbn [on_grid] in Hx; try contradiction.
  - destruct Hx as (-> & Hx). exists 0. split; [lia|reflexivity].
  - destruct Hx as (-> & He & Hx). rewrite Z.sub_0_l in Hx.
    exists (round_half_away m e). split; [|reflexivity].
    unfold round_half_away. destruct (Z.leb_spec 0 e) as [H0|H0].
    + assert (e = 0) by lia. subst. change (2 ^ (- 0)) with 1 in Hx.
      change (2 ^ 0) with 1. lia.
    + assert (P : 0 < 2 ^ (- e)) by (apply Z.pow_pos_nonneg; lia).
      replace (1 - e) with (Z.succ (- e)) by lia. rewrite Z.pow_succ_r by lia.
      split.
      * apply Z.div_le_lower_bound; nia.
      * apply Z.lt_succ_r. apply Z.div_lt_upper_bound; nia.
Qed.

Lemma d_sub_grid b L1 L2 x y :
  on_grid b L1 L1 x -> on_grid b L2 L2 y ->
  0 <= L2 <= L1 -> L1 < 2 ^ 53 -> -1074 <= b <= 971 ->
  on_grid b (L1 - L2) (L1 - L2) (d_sub x y).
Proof.
  intros Hx Hy HL HH Hb. unfold d_sub.
  destruct x as [sx|sx| |sx mx ex]; destruct y as [sy|sy| |sy my ey];
    cbn [on_grid] in Hx, Hy; try contradiction.
  - destruct Hx as (-> & Hx), Hy as (-> & Hy). cbn. split; [reflexivity|]. lia.
  - destruct Hx as (-> & Hx), Hy as (-> & Hey & Hy). exfalso.
    assert (0 < 2 ^ (b - ey)) by (apply Z.pow_pos_nonneg; lia). nia.
  - destruct Hx as (-> & Hex & Hx), Hy as (-> & Hy). cbn [SFsub on_grid].
    split; [reflexivity|]. split; [assumption|].
    assert (L2 = 0) by lia. subst. rewrite Z.sub_0_r. exact Hx.
  - destruct Hx as (-> & Hex & Hx), Hy as (-> & Hey & Hy).
    cbn [SFsub]. set (ez := Z.min ex ey).
    destruct (shl_align_le mx ex ez) as (ax & Ex & Vx); [unfold ez; lia|].
    destruct (shl_align_le my ey ez) as (ay & Ey & Vy); [unfold ez; lia|].
    rewrite Ex, Ey. cbn [fst cond_Zopp].
    assert (Ax : Zpos ax = L1 * 2 ^ (b - ez)).
    { rewrite Vx, <- (grid_scale L1 b ex ez) by (unfold ez; lia).
      assert (Zpos mx = L1 * 2 ^ (b - ex)) by lia. congruence. }
    assert (Ay : Zpos ay = L2 * 2 ^ (b - ez)).
    { rewrite Vy, <- (grid_scale L2 b ey ez) by (unfold ez; lia).
      assert (Zpos my = L2 * 2 ^ (b - ey)) by lia. congruence. }
    assert (Ed : Zpos ax - Zpos ay = (L1 - L2) * 2 ^ (b - ez)) by lia.
    assert (0 < 2 ^ (b - ez)) by (apply Z.pow_pos_nonneg; unfold ez; lia).
    destruct (Zpos ax - Zpos ay) as [|d|d] eqn:Ediff.
    + cbn [binary_normalize on_grid]. split; [reflexivity|]. nia.
    + cbn [binary_normalize]. apply binary_round_grid; try lia; try (unfold ez; lia).
    + exfalso. nia.
Qed.

Lemma on_gridb_sound b L H x : on_gridb b L H x = true -> on_grid b L H x.
Proof.
  destruct x as [s|s| |s m e]; cbn [on_gridb on_grid]; try discriminate.
  - rewrite !andb_true_iff, negb_true_iff, !Z.leb_le. tauto.
  - rewrite !andb_true_iff, negb_true_iff, !Z.leb_le. tauto.
Qed.

Lemma to_pos_pow2 k : 0 <= k -> Zpos (Z.to_pos (2 ^ k)) = 2 ^ k.
Proof. intros. apply Z2Pos.id. apply Z.pow_pos_nonneg; lia. Qed.

(** Two points of grids [e <= b] compare like their integer coordinates at
    the finer grid. *)
Lemma grid_point_le_l b e L m :
  e <= b -> L * 2 ^ (b - e) <= m -> (grid_point b L <= grid_point e m)%Q.
Proof.
  intros He Hm. unfold grid_point, Qle.
  destruct (Z.leb_spec 0 b) as [Hb|Hb]; destruct (Z.leb_spec 0 e) as [H0|H0];
    cbn [Qnum Qden inject_Z]; rewrite ?to_pos_pow2 by lia; try lia.
  - rewrite !Z.mul_1_r.
    replace b with ((b - e) + e) at 1 by lia. rewrite pow2_split by lia.
    assert (0 < 2 ^ e) by (apply Z.pow_pos_nonneg; lia). nia.
  - rewrite Z.mul_1_r.
    replace (b - e) with (b + - e) in Hm by lia. rewrite pow2_split in Hm by lia.
    lia.
  - replace (- e) with ((b - e) + - b) by lia. rewrite pow2_split by lia.
    assert (0 < 2 ^ (- b)) by (apply Z.pow_pos_nonneg; lia). nia.
Qed.

Lemma grid_point_le_r b e H m :
  e <= b -> m <= H * 2 ^ (b - e) -> (grid_point e m <= grid_point b H)%Q.
Proof.
  intros He Hm. unfold grid_point, Qle.
  destruct (Z.leb_spec 0 b) as [Hb|Hb]; destruct (Z.leb_spec 0 e) as [H0|H0];
    cbn [Qnum Qden inject_Z]; rewrite ?to_pos_pow2 by lia; try lia.
  - rewrite !Z.mul_1_r.
    replace b with ((b - e) + e) at 1 by lia. rewrite pow2_split by lia.
    assert (0 < 2 ^ e) by (apply Z.pow_pos_nonneg; lia). nia.
  - rewrite Z.mul_1_r.
    replace (b - e) with (b + - e) in Hm by lia. rewrite pow2_split in Hm by lia.
    lia.
  - replace (- e) with ((b - e) + - b) by lia. rewrite pow2_split by lia.
    assert (0 < 2 ^ (- b)) by (apply Z.pow_pos_nonneg; lia). nia.
Qed.

Lemma grid_point_sign b L :
  (L <= 0 -> (grid_point b L <= 0)%Q) /\ (0 <= L -> (0 <= grid_point b L)%Q).
Proof.
  unfold grid_point, Qle. destruct (Z.leb_spec 0 b) as [Hb|Hb]; cbn [Qnum Qden inject_Z].
  - assert (0 < 2 ^ b) by (apply Z.pow_pos_nonneg; lia). split; intro; nia.
  - split; intro; lia.
Qed.

Lemma on_grid_between b L H x :
  on_grid b L H x -> d_between (grid_point b L) (grid_point b H) x.
Proof.
  destruct x as [s|s| |s m e]; cbn [on_grid]; try contradiction.
  - intros (-> & HL & HH). repeat split.
    + apply grid_point_sign; assumption.
    + apply grid_point_sign; assumption.
  - intros (-> & He & HL & HH). repeat split; cbn [d_value cond_Zopp].
    + apply grid_point_le_l; assumption.
    + apply grid_point_le_r; assumption.
Qed.

(* ================================================================== *)
(** * Part III: the numeric utilities *)
(* ================================================================== *)

Ltac grid_const := apply on_gridb_sound; vm_compute; reflexivity.

(** [(double)rand() / RAND_MAX] lies in [0, 1]. *)
Lemma unit_draw_grid R r :
  0 < R < 2 ^ 53 -> 0 <= r <= R ->
  on_grid 0 0 1 (d_div (of_int r) (of_int R)).
Proof.
  intros HR Hr. apply (d_div_unit r R); try lia; apply of_int_grid; lia.
Qed.

(** On a common grid, [randomDouble] stays between its two arguments. *)
Lemma randomDouble_grid R r b a c mn mx :
  0 < R < 2 ^ 53 -> 0 <= r <= R ->
  on_grid b a a mn -> on_grid b c c mx ->
  0 <= a <= c -> c < 2 ^ 53 -> -1074 <= b <= 971 ->
  on_grid b a c (randomDouble_of R r mn mx).
Proof.
  intros HR Hr Hmn Hmx Hac Hc Hb. unfold randomDouble_of.
  pose proof (unit_draw_grid R r HR Hr) as Hu.
  pose proof (d_sub_grid b c a mx mn Hmx Hmn ltac:(lia) Hc Hb) as Hd.
  pose proof (d_mul_grid 0 0 1 b (c - a) (c - a) _ _ Hu Hd) as Hp.
  cbn [Z.add] in Hp. rewrite Z.mul_0_l, Z.mul_1_l in Hp.
  specialize (Hp ltac:(lia) ltac:(lia) ltac:(lia) ltac:(lia)).
  pose proof (d_add_grid b a a 0 (c - a) _ _ Hmn Hp) as Hs.
  replace (a + 0) with a in Hs by lia. replace (a + (c - a)) with c in Hs by lia.
  apply Hs; lia.
Qed.

(** At [rand() = RAND_MAX] the quotient is exactly 1 and [randomDouble]
    lands on its upper argument. *)
Lemma randomDouble_grid_top R b a c mn mx :
  0 < R < 2 ^ 53 ->
  on_grid b a a mn -> on_grid b c c mx ->
  0 <= a <= c -> c < 2 ^ 53 -> -1074 <= b <= 971 ->
  on_grid b c c (randomDouble_of R R mn mx).
Proof.
  intros HR Hmn Hmx Hac Hc Hb. unfold randomDouble_of.
  assert (Hu : on_grid 0 1 1 (d_div (of_int R) (of_int R))).
  { apply (d_div_grid R R 1); try lia; apply of_int_grid; lia. }
  pose proof (d_sub_grid b c a mx mn Hmx Hmn ltac:(lia) Hc Hb) as Hd.
  pose proof (d_mul_grid 0 1 1 b (c - a) (c - a) _ _ Hu Hd) as Hp.
  cbn [Z.add] in Hp. rewrite Z.mul_1_l in Hp.
  specialize (Hp ltac:(lia) ltac:(lia) ltac:(lia) ltac:(lia)).
  pose proof (d_add_grid b a a (c - a) (c - a) _ _ Hmn Hp) as Hs.
  replace (a + (c - a)) with c in Hs by lia.
  apply Hs; lia.
Qed.

(** At [rand() = 0] every step is exact and [randomDouble] returns its lower
    argument itself. *)
Lemma randomDouble_bottom R b a c mn mx :
  0 < R < 2 ^ 53 ->
  on_grid b a a mn -> on_grid b c c mx ->
  0 <= a <= c -> c < 2 ^ 53 -> -1074 <= b <= 971 ->
  randomDouble_of R 0 mn mx = mn.
Proof.
  intros HR Hmn Hmx Hac Hc Hb. unfold randomDouble_of.
  pose proof (of_int_grid R ltac:(lia)) as HRg.
  pose proof (d_sub_grid b c a mx mn Hmx Hmn ltac:(lia) Hc Hb) as Hd.
  change (of_int 0) with (S754_zero false).
  destruct (of_int R) as [sR|sR| |sR mR eR]; cbn [on_grid] in HRg; try contradiction;
    [lia|].
  cbn [d_div SFdiv]. destruct HRg as (-> & _). cbn [xorb].
  destruct (d_sub mx mn) as [sd|sd| |sd md ed]; cbn [on_grid] in Hd; try contradiction.
  - destruct Hd as (-> & _). cbn [d_mul SFmul xorb].
    destruct mn as [sm|sm| |sm mm em]; cbn [on_grid] in Hmn; try contradiction.
    + destruct Hmn as (-> & _). reflexivity.
    + reflexivity.
  - destruct Hd as (-> & _). cbn [d_mul SFmul xorb].
    destruct mn as [sm|sm| |sm mm em]; cbn [on_grid] in Hmn; try contradiction.
    + destruct Hmn as (-> & _). reflexivity.
    + reflexivity.
Qed.

(** [lam_tron] returns the double nearest to a whole number of tenths. *)
Lemma lam_tron_tenths L H x :
  on_grid 0 L H x -> 0 <= L -> 10 * H < 2 ^ 53 ->
  exists K, 10 * L <= K <= 10 * H /\ lam_tron x = d_tenth K.
Proof.
  intros Hx HL HH.
  assert (H10 : on_grid 0 10 10 (of_int 10)) by grid_const.
  pose proof (d_mul_grid 0 L H 0 10 10 _ _ Hx H10 HL ltac:(lia)) as Hp.
  cbn [Z.add] in Hp. specialize (Hp ltac:(lia) ltac:(lia)).
  destruct (d_round_grid _ _ _ Hp ltac:(lia)) as (K & HK & E).
  exists K. split; [lia|]. unfold lam_tron, d_tenth. rewrite E. reflexivity.
Qed.

Lemma lam_tron_half_tenths L H x :
  on_grid (-1) L H x -> 0 <= L -> 5 * H < 2 ^ 53 ->
  exists K, 5 * L <= K <= 5 * H /\ lam_tron x = d_tenth K.
Proof.
  intros Hx HL HH.
  assert (H10 : on_grid 1 5 5 (of_int 10)) by grid_const.
  pose proof (d_mul_grid (-1) L H 1 5 5 _ _ Hx H10 HL ltac:(lia)) as Hp.
  change (-1 + 1) with 0 in Hp. specialize (Hp ltac:(lia) ltac:(lia)).
  destruct (d_round_grid _ _ _ Hp ltac:(lia)) as (K & HK & E).
  exists K. split; [lia|]. unfold lam_tron, d_tenth. rewrite E. reflexivity.
Qed.


(** ** Checking a property on a whole integer range by evaluation *)

Lemma Zrange_In lo n K : lo <= K < lo + Z.of_nat n -> In K (Zrange lo n).
Proof.
  intros HK. unfold Zrange. apply in_map_iff.
  exists (Z.to_nat (K - lo)). split; [lia|]. apply in_seq. lia.
Qed.

Lemma Zrange_forallb (P : Z -> bool) lo n :
  forallb P (Zrange lo n) = true ->
  forall K, lo <= K < lo + Z.of_nat n -> P K = true.
Proof.
  intros HP K HK. rewrite forallb_forall in HP. apply HP, Zrange_In, HK.
Qed.

Lemma tenth_printed_all K : 0 <= K <= 120 -> fixed_field 1 (d_tenth K) = Some K.
Proof.
  intros HK.
  assert (E : tenth_printed K = true).
  { apply (Zrange_forallb tenth_printed 0 121); [vm_compute; reflexivity|lia]. }
  unfold tenth_printed in E. destruct (fixed_field 1 (d_tenth K)); [|discriminate].
  apply Z.eqb_eq in E. congruence.
Qed.

Lemma fare_printed_all K :
  20 <= K <= 120 -> fixed_field 0 (fare_of (d_tenth K)) = Some (1200 * K).
Proof.
  intros HK.
  assert (E : fare_printed K = true).
  { apply (Zrange_forallb fare_printed 20 101); [vm_compute; reflexivity|lia]. }
  unfold fare_printed in E.
  destruct (fixed_field 0 (fare_of (d_tenth K))); [|discriminate].
  apply Z.eqb_eq in E. congruence.
Qed.

Lemma d_same_eq x y : d_same x y = true -> x = y.
Proof.
  destruct x as [a|a| |a m e]; destruct y as [b|b| |b n f]; cbn [d_same];
    try discriminate; try reflexivity.
  - intros E. apply Bool.eqb_prop in E. congruence.
  - intros E. apply Bool.eqb_prop in E. congruence.
  - rewrite !andb_true_iff. intros [[E1 E2] E3].
    apply Bool.eqb_prop in E1. apply Pos.eqb_eq in E2. apply Z.eqb_eq in E3. congruence.
Qed.

Lemma d_betweenb_sound lo hi x : d_betweenb lo hi x = true -> d_between lo hi x.
Proof.
  unfold d_betweenb, d_between. rewrite !andb_true_iff, !Qle_bool_iff. tauto.
Qed.

Lemma fare_rounded_all K :
  20 <= K <= 120 -> d_round (fare_of (d_tenth K)) = of_int (1200 * K).
Proof.
  intros HK. apply d_same_eq.
  apply (Zrange_forallb fare_rounded 20 101); [vm_compute; reflexivity|lia].
Qed.

Lemma tenth_within_range lo hi a n K :
  forallb (tenth_within lo hi) (Zrange a n) = true ->
  a <= K < a + Z.of_nat n -> d_between lo hi (d_tenth K).
Proof.
  intros Hall HK. apply d_betweenb_sound.
  exact (Zrange_forallb (tenth_within lo hi) a n Hall K HK).
Qed.

Lemma rating_value K : 35 <= K <= 50 -> d_between (7 # 2) 5 (d_tenth K).
Proof.
  intros HK. apply (tenth_within_range _ _ 35 16); [vm_compute; reflexivity|lia].
Qed.

Lemma coord_value K : 0 <= K <= 100 -> d_between 0 10 (d_tenth K).
Proof.
  intros HK. apply (tenth_within_range _ _ 0 101); [vm_compute; reflexivity|lia].
Qed.

Lemma distance_value K : 20 <= K <= 120 -> d_between 2 12 (d_tenth K).
Proof.
  intros HK. apply (tenth_within_range _ _ 20 101); [vm_compute; reflexivity|lia].
Qed.

(** ** [randomInt] *)

Lemma wrap_int_id z : INT_MIN <= z <= INT_MAX -> wrap_int z = z.
Proof.
  unfold INT_MIN, INT_MAX, wrap_int. intros Hz.
  rewrite Z.mod_small by lia. lia.
Qed.

(** Without overflow, [randomInt] is [min + r mod (max - min + 1)]. *)
Lemma randomInt_of_mod r min max :
  0 <= r <= INT_MAX -> INT_MIN <= min -> min <= max -> max <= INT_MAX ->
  max - min < INT_MAX ->
  randomInt_of r min max = min + r mod (max - min + 1).
Proof.
  intros Hr Hmin Hle Hmax Hn. unfold randomInt_of, int_add, int_sub, int_rem.
  unfold INT_MIN, INT_MAX in *.
  rewrite (wrap_int_id (max - min)) by (unfold INT_MIN, INT_MAX; lia).
  rewrite (wrap_int_id (max - min + 1)) by (unfold INT_MIN, INT_MAX; lia).
  rewrite Z.rem_mod_nonneg by lia.
  pose proof (Z.mod_pos_bound r (max - min + 1) ltac:(lia)).
  apply wrap_int_id. unfold INT_MIN, INT_MAX. lia.
Qed.

Lemma randomInt_of_range r min max :
  0 <= r <= INT_MAX -> INT_MIN <= min -> min <= max -> max <= INT_MAX ->
  max - min < INT_MAX ->
  min <= randomInt_of r min max <= max.
Proof.
  intros Hr Hmin Hle Hmax Hn. rewrite randomInt_of_mod by assumption.
  pose proof (Z.mod_pos_bound r (max - min + 1) ltac:(lia)). lia.
Qed.

(** ** Counting the draws that give one value *)

Lemma Zrange_S lo n : Zrange lo (S n) = (Zrange lo n ++ [lo + Z.of_nat n])%list.
Proof. unfold Zrange. rewrite seq_S, map_app. reflexivity. Qed.

Lemma count_mod_step n j N :
  0 < n -> 0 <= j < n -> 0 <= N ->
  (N + 1 + n - 1 - j) / n = (N + n - 1 - j) / n + (if N mod n =? j then 1 else 0).
Proof.
  intros Hn Hj HN.
  pose proof (Z.div_mod N n ltac:(lia)) as E.
  pose proof (Z.mod_pos_bound N n Hn) as B.
  set (q := N / n) in *. set (t := N mod n) in *.
  destruct (Z.eqb_spec t j) as [Heq|Hne].
  - replace (N + 1 + n - 1 - j) with ((q + 1) * n + 0) by lia.
    replace (N + n - 1 - j) with (q * n + (n - 1)) by lia.
    rewrite !Z.div_add_l by lia.
    rewrite Z.div_0_l by lia. rewrite Z.div_small by lia. lia.
  - destruct (Z.lt_ge_cases t j) as [Hlt|Hge].
    + replace (N + 1 + n - 1 - j) with (q * n + (t + n - j)) by lia.
      replace (N + n - 1 - j) with (q * n + (t + n - 1 - j)) by lia.
      rewrite !Z.div_add_l by lia. rewrite !Z.div_small by lia. lia.
    + replace (N + 1 + n - 1 - j) with ((q + 1) * n + (t - j)) by lia.
      replace (N + n - 1 - j) with ((q + 1) * n + (t - 1 - j)) by lia.
      rewrite !Z.div_add_l by lia. rewrite !Z.div_small by lia. lia.
Qed.

(** Among [0 .. N-1], the residue [j] modulo [n] occurs
    [(N + n - 1 - j) / n] times. *)
Lemma count_residue n j N :
  0 < n -> 0 <= j < n ->
  Z.of_nat (List.length (filter (fun r => r mod n =? j) (Zrange 0 N)))
  = (Z.of_nat N + n - 1 - j) / n.
Proof.
  intros Hn Hj. induction N as [|N IH].
  - cbn. symmetry. apply Z.div_small. lia.
  - rewrite Zrange_S, filter_app, length_app, Nat2Z.inj_add, IH.
    rewrite Nat2Z.inj_succ. unfold Z.succ.
    rewrite (count_mod_step n j (Z.of_nat N)) by lia.
    f_equal. cbn [filter Z.add].
    destruct (Z.of_nat N mod n =? j); reflexivity.
Qed.

Lemma filter_ext_range {A} (P Q : A -> bool) l :
  (forall x, In x l -> P x = Q x) -> filter P l = filter Q l.
Proof.
  induction l as [|a l IH]; intros H; [reflexivity|]. cbn [filter].
  rewrite (H a (or_introl eq_refl)), IH; [reflexivity|].
  intros x Hx. apply H. right. exact Hx.
Qed.

Lemma Zrange_bounds lo n K : In K (Zrange lo n) -> lo <= K < lo + Z.of_nat n.
Proof.
  unfold Zrange. rewrite in_map_iff. intros (k & <- & Hk). apply in_seq in Hk. lia.
Qed.

(** ** Timestamps *)

Lemma wrap_time_id z :
  - 2 ^ 63 <= z < 2 ^ 63 -> wrap_time z = z.
Proof.
  unfold wrap_time. change (2 ^ 63) with 9223372036854775808. intros Hz.
  rewrite Z.mod_small by lia. lia.
Qed.

(** Without [int] overflow the instant is [now - days * 86400 - h * 3600]. *)
Lemma shifted_time_exact now d h :
  - 24855 <= d <= 24854 -> 0 <= h <= 23 -> - 2 ^ 62 <= now <= 2 ^ 62 ->
  shifted_time now d h = now - d * 86400 - h * 3600.
Proof.
  intros Hd Hh Hnow. unfold shifted_time, int_add, int_mul.
  change (2 ^ 62) with 4611686018427387904 in Hnow.
  rewrite (wrap_int_id (d * 86400)) by (unfold INT_MIN, INT_MAX; lia).
  rewrite (wrap_int_id (h * 3600)) by (unfold INT_MIN, INT_MAX; lia).
  rewrite wrap_int_id by (unfold INT_MIN, INT_MAX; lia).
  rewrite wrap_time_id by (change (2 ^ 63) with 9223372036854775808; lia).
  lia.
Qed.

Lemma matches_app p1 s1 p2 s2 :
  matches p1 s1 = true -> matches p2 s2 = true -> matches (p1 ++ p2) (s1 ++ s2) = true.
Proof.
  revert s1. induction p1 as [|p p1 IH]; intros [|c s1]; cbn [matches append];
    try discriminate; [intros _ H; exact H|].
  rewrite !andb_true_iff. intros [Hc H1] H2. split; [exact Hc|]. apply IH; assumption.
Qed.

Lemma year_shape_all y : 1000 <= y <= 9999 -> matches "dddd" (show_int y) = true.
Proof.
  intros Hy. apply (Zrange_forallb year_shape 1000 (Z.to_nat 9000)); [vm_compute; reflexivity|lia].
Qed.

Lemma field_shape_all n : 0 <= n <= 99 -> matches "dd" (show_int_width 2 n) = true.
Proof.
  intros Hn. apply (Zrange_forallb field_shape 0 100); [vm_compute; reflexivity|lia].
Qed.

Lemma format_tm_shape t : tm_in_range t -> is_timestamp (format_tm t) = true.
Proof.
  intros (Hy & Hmo & Hd & Hh & Hmi & Hs). unfold is_timestamp, format_tm, int_add.
  rewrite !wrap_int_id by (unfold INT_MIN, INT_MAX; lia).
  change "dddd-dd-ddTdd:dd:dd"
    with ("dddd" ++ "-" ++ "dd" ++ "-" ++ "dd" ++ "T" ++ "dd" ++ ":" ++ "dd" ++ ":" ++ "dd").
  repeat (apply matches_app;
          [first [apply year_shape_all; lia | apply field_shape_all; lia | reflexivity]|]).
  apply field_shape_all; lia.
Qed.

(* ================================================================== *)
(** * Part IV: loops, files and the run *)
(* ================================================================== *)

Lemma for_count_S {A} (body : Z -> M A) n i s :
  for_count (S n) i body s =
  (fst (body i s) :: fst (for_count n (i + 1) body (snd (body i s))),
   snd (for_count n (i + 1) body (snd (body i s)))).
Proof. reflexivity. Qed.

Lemma emit_run {A} f (row : Z -> M A) line i s :
  emit f row line i s =
  (fst (row i s), snd (put_line f (line (fst (row i s))) (snd (row i s)))).
Proof. reflexivity. Qed.

Lemma for_count_length {A} (body : Z -> M A) n :
  forall i s, List.length (fst (for_count n i body s)) = n.
Proof.
  induction n as [|n IH]; intros i s; [reflexivity|].
  rewrite for_count_S. cbn [fst Datatypes.length]. rewrite IH. reflexivity.
Qed.

Lemma for_count_Forall {A} (P : A -> Prop) (body : Z -> M A) :
  (forall i s, P (fst (body i s))) ->
  forall n i s, Forall P (fst (for_count n i body s)).
Proof.
  intros HP. induction n as [|n IH]; intros i s; [constructor|].
  rewrite for_count_S. cbn [fst]. constructor; [apply HP|apply IH].
Qed.

Lemma fs_set_same f p c : fs_set f p c p = Some c.
Proof. unfold fs_set. rewrite String.eqb_refl. reflexivity. Qed.

Lemma fs_set_other f p c q : q <> p -> fs_set f p c q = f q.
Proof. unfold fs_set. intros H. apply String.eqb_neq in H. rewrite H. reflexivity. Qed.

Section Files.
Variable can_open : string -> bool.
Context {A : Type}.
Variable row : Z -> M A.
Variable line : A -> string.
Hypothesis row_keeps : keeps_fs row.

Lemma emit_rows_open f n :
  os_open f = true ->
  forall i s ls, fs s (os_path f) = Some ls ->
  let res := for_count n i (emit f row line) s in
  fs (snd res) (os_path f) = Some (ls ++ map line (fst res))%list /\
  forall q, q <> os_path f -> fs (snd res) q = fs s q.
Proof using row_keeps.
  intros Hopen. induction n as [|n IH]; intros i s ls Hls.
  - cbn. rewrite app_nil_r. auto.
  - rewrite for_count_S. cbn [fst snd].
    set (s1 := snd (emit f row line i s)).
    assert (E1 : fs s1 = fs_set (fs s) (os_path f) (ls ++ [line (fst (row i s))])).
    { unfold s1. rewrite emit_run. cbn [snd]. unfold put_line.
      rewrite Hopen, row_keeps, Hls. cbn [snd fs]. reflexivity. }
    assert (F1 : fst (emit f row line i s) = fst (row i s)) by reflexivity.
    destruct (IH (i + 1) s1 (ls ++ [line (fst (row i s))])%list) as [I1 I2].
    { rewrite E1. apply fs_set_same. }
    split.
    + rewrite I1, F1. cbn [map]. rewrite <- app_assoc. reflexivity.
    + intros q Hq. rewrite I2, E1 by assumption. apply fs_set_other. exact Hq.
Qed.

Lemma emit_rows_closed f n :
  os_open f = false ->
  forall i s, fs (snd (for_count n i (emit f row line) s)) = fs s.
Proof using row_keeps.
  intros Hclosed. induction n as [|n IH]; intros i s; [reflexivity|].
  rewrite for_count_S. cbn [snd]. rewrite IH, emit_run. cbn [snd].
  unfold put_line. rewrite Hclosed. cbn [snd]. apply row_keeps.
Qed.

Lemma print_fs text s : fs (snd (print text s)) = fs s.
Proof. reflexivity. Qed.

Lemma csv_block_run path header announce count s :
  csv_block can_open path header announce count row line s =
  let o := open can_open path s in
  let sp := snd (print announce (snd (put_line (fst o) header (snd o)))) in
  let lp := for_count (Z.to_nat count) 1 (emit (fst o) row line) sp in
  (fst lp, snd (print ("  -> " ++ path ++ String "010" "") (snd lp))).
Proof. reflexivity. Qed.

(** What one block leaves in the file system. *)
Lemma csv_block_files path header announce count s :
  let res := csv_block can_open path header announce count row line s in
  forall q,
    fs (snd res) q =
    if can_open path && String.eqb q path
    then Some (header :: map line (fst res))
    else fs s q.
Proof using row_keeps.
  intros res q. unfold res. rewrite csv_block_run. cbv zeta. cbn [fst snd].
  rewrite print_fs. unfold open.
  destruct (can_open path) eqn:Eo; cbn [fst snd andb].
  - set (f := mk_ofstream path true).
    set (s0 := mk_proc (rand_calls s) (time_calls s) (cout s) (fs_set (fs s) path [])).
    set (sp := snd (print announce (snd (put_line f header s0)))).
    assert (Ep : fs sp = fs_set (fs s0) path [header]).
    { unfold sp. rewrite print_fs. unfold put_line. cbn [os_open os_path f].
      unfold s0 at 1. cbn [fs]. rewrite fs_set_same. reflexivity. }
    destruct (emit_rows_open f (Z.to_nat count) eq_refl 1 sp [header]) as [I1 I2].
    { rewrite Ep. apply fs_set_same. }
    destruct (String.eqb_spec q path) as [->|Hne].
    + exact I1.
    + rewrite (I2 q Hne), Ep. unfold s0. cbn [fs].
      rewrite !fs_set_other by exact Hne. reflexivity.
  - set (f := mk_ofstream path false).
    rewrite emit_rows_closed by reflexivity. reflexivity.
Qed.

Lemma csv_block_length path header announce count s :
  List.length (fst (csv_block can_open path header announce count row line s))
  = Z.to_nat count.
Proof.
  rewrite csv_block_run. cbv zeta. cbn [fst]. apply for_count_length.
Qed.
End Files.

Section Run.
Variable w : World.

Let R := w_RAND_MAX w.
Let rnd := w_rand w.
Let clk := w_clock w.
Let lt := w_localtime w.
Let can := w_can_open w.

Lemma driver_row_keeps : keeps_fs (driver_row R rnd).
Proof. intros i s. reflexivity. Qed.

Lemma customer_row_keeps : keeps_fs (customer_row R rnd).
Proof. intros i s. reflexivity. Qed.

Lemma ride_row_keeps : keeps_fs (ride_row R rnd clk lt).
Proof. intros i s. reflexivity. Qed.

Lemma main_blocks_eq s :
  main R rnd clk lt can s = main_blocks R rnd clk lt can s.
Proof.
  lazy beta iota zeta delta [main main_blocks csv_block bind ret fst snd].
  reflexivity.
Qed.

Lemma main_blocks_run s :
  main_blocks R rnd clk lt can s =
  let b1 := csv_block can (csv_path Drivers) driver_header
              ("Dang sinh " ++ show_int SO_TAI_XE ++ " tai xe..." ++ String "010" "")
              SO_TAI_XE (driver_row R rnd) driver_line (after_banner clk s) in
  let b2 := csv_block can (csv_path Customers) customer_header
              ("Dang sinh " ++ show_int SO_KHACH_HANG ++ " khach hang..." ++ String "010" "")
              SO_KHACH_HANG (customer_row R rnd) customer_line (snd b1) in
  let b3 := csv_block can (csv_path Rides) ride_header
              ("Dang sinh " ++ show_int SO_CHUYEN_DI ++ " chuyen di..." ++ String "010" "")
              SO_CHUYEN_DI (ride_row R rnd clk lt) ride_line (snd b2) in
  ((0, mk_generated (fst b1) (fst b2) (fst b3)), after_closing (snd b3)).
Proof.
  lazy beta iota zeta delta [main_blocks bind ret fst snd after_banner after_closing csv_path].
  reflexivity.
Qed.

(** [main] is a banner, three blocks and a closing banner. *)
Lemma run_blocks :
  exists s1 a1 a2 a3,
    let b1 := csv_block can (csv_path Drivers) driver_header a1 SO_TAI_XE
                        (driver_row R rnd) driver_line s1 in
    let b2 := csv_block can (csv_path Customers) customer_header a2 SO_KHACH_HANG
                        (customer_row R rnd) customer_line (snd b1) in
    let b3 := csv_block can (csv_path Rides) ride_header a3 SO_CHUYEN_DI
                        (ride_row R rnd clk lt) ride_line (snd b2) in
    fs s1 = w_disk w /\
    generated w = mk_generated (fst b1) (fst b2) (fst b3) /\
    files w = fs (snd b3) /\
    exit_code w = 0.
Proof.
  exists (after_banner clk (start (w_disk w))).
  exists ("Dang sinh " ++ show_int SO_TAI_XE ++ " tai xe..." ++ String "010" "").
  exists ("Dang sinh " ++ show_int SO_KHACH_HANG ++ " khach hang..." ++ String "010" "").
  exists ("Dang sinh " ++ show_int SO_CHUYEN_DI ++ " chuyen di..." ++ String "010" "").
  unfold generated, files, exit_code, run. fold R rnd clk lt can.
  rewrite main_blocks_eq, main_blocks_run. cbv zeta. cbn [fst snd].
  repeat split.
Qed.

(** What the run leaves at the path of each of the three files. *)
Lemma files_spec (f : CsvFile) :
  files w (csv_path f) =
  if can (csv_path f)
  then Some (csv_header f :: csv_lines f (generated w))
  else w_disk w (csv_path f).
Proof.
  destruct run_blocks as (s1 & a1 & a2 & a3 & Hrun). cbv zeta in Hrun.
  destruct Hrun as (Hdisk & Hgen & Hfiles & _).
  rewrite Hfiles, Hgen.
  rewrite (csv_block_files can _ _ ride_row_keeps).
  rewrite (csv_block_files can _ _ customer_row_keeps).
  rewrite (csv_block_files can _ _ driver_row_keeps).
  rewrite Hdisk.
  destruct f; cbn [csv_lines csv_header drivers customers rides].
  - replace (String.eqb (csv_path Drivers) (csv_path Rides)) with false by reflexivity.
    replace (String.eqb (csv_path Drivers) (csv_path Customers)) with false by reflexivity.
    rewrite String.eqb_refl, !andb_false_r, andb_true_r. reflexivity.
  - replace (String.eqb (csv_path Customers) (csv_path Rides)) with false by reflexivity.
    rewrite String.eqb_refl, !andb_false_r, andb_true_r.
    destruct (can (csv_path Customers)); reflexivity.
  - rewrite String.eqb_refl, andb_true_r.
    replace (String.eqb (csv_path Rides) (csv_path Customers)) with false by reflexivity.
    replace (String.eqb (csv_path Rides) (csv_path Drivers)) with false by reflexivity.
    rewrite !andb_false_r. reflexivity.
Qed.

Lemma block_rows_Forall {A} (P : A -> Prop) (row : Z -> M A) line
    path header announce count s :
  (forall i s', P (fst (row i s'))) ->
  Forall P (fst (csv_block can path header announce count row line s)).
Proof.
  intros HP. rewrite csv_block_run. cbv zeta. cbn [fst].
  apply for_count_Forall. intros i s'. rewrite emit_run. apply HP.
Qed.

Lemma drivers_Forall (P : DriverRow -> Prop) :
  (forall i s, P (fst (driver_row R rnd i s))) -> Forall P (drivers (generated w)).
Proof.
  intros HP. destruct run_blocks as (s1 & a1 & a2 & a3 & Hrun). cbv zeta in Hrun.
  destruct Hrun as (_ & Hgen & _). rewrite Hgen. cbn [drivers].
  apply block_rows_Forall. exact HP.
Qed.

Lemma customers_Forall (P : CustomerRow -> Prop) :
  (forall i s, P (fst (customer_row R rnd i s))) -> Forall P (customers (generated w)).
Proof.
  intros HP. destruct run_blocks as (s1 & a1 & a2 & a3 & Hrun). cbv zeta in Hrun.
  destruct Hrun as (_ & Hgen & _). rewrite Hgen. cbn [customers].
  apply block_rows_Forall. exact HP.
Qed.

Lemma rides_Forall (P : RideRow -> Prop) :
  (forall i s, P (fst (ride_row R rnd clk lt i s))) -> Forall P (rides (generated w)).
Proof.
  intros HP. destruct run_blocks as (s1 & a1 & a2 & a3 & Hrun). cbv zeta in Hrun.
  destruct Hrun as (_ & Hgen & _). rewrite Hgen. cbn [rides].
  apply block_rows_Forall. exact HP.
Qed.

Lemma generated_lengths :
  List.length (drivers (generated w)) = Z.to_nat SO_TAI_XE /\
  List.length (customers (generated w)) = Z.to_nat SO_KHACH_HANG /\
  List.length (rides (generated w)) = Z.to_nat SO_CHUYEN_DI.
Proof.
  destruct run_blocks as (s1 & a1 & a2 & a3 & Hrun). cbv zeta in Hrun.
  destruct Hrun as (_ & Hgen & _). rewrite Hgen. cbn [drivers customers rides].
  rewrite !csv_block_length. auto.
Qed.

(** The draws behind one row of each kind. *)
Lemma driver_row_draws i s :
  exists name k1 k2 k3 k4,
    fst (driver_row R rnd i s) =
    mk_driver i name
      (lam_tron (randomDouble_of R (rnd k1) d_3_5 d_5_0))
      (lam_tron (randomDouble_of R (rnd k2) (of_int 0) (of_int 10)))
      (lam_tron (randomDouble_of R (rnd k3) (of_int 0) (of_int 10)))
      (randomInt_of (rnd k4) 10 80).
Proof. eexists _, _, _, _, _. reflexivity. Qed.

Lemma customer_row_draws i s :
  exists name k0 k1 k2,
    fst (customer_row R rnd i s) =
    mk_customer i name (at_index QUAN (randomInt_of (rnd k0) 0 9))
      (lam_tron (randomDouble_of R (rnd k1) (of_int 0) (of_int 10)))
      (lam_tron (randomDouble_of R (rnd k2) (of_int 0) (of_int 10))).
Proof. eexists _, _, _, _. reflexivity. Qed.

Lemma ride_row_draws i s :
  exists k0 k1 k2 k3 k4 k5 t,
    fst (ride_row R rnd clk lt i s) =
    mk_ride i (randomInt_of (rnd k1) 1 SO_KHACH_HANG) (randomInt_of (rnd k2) 1 SO_TAI_XE)
      (lam_tron (randomDouble_of R (rnd k0) (of_int 2) (of_int 12)))
      (d_mul (lam_tron (randomDouble_of R (rnd k0) (of_int 2) (of_int 12)))
             (of_int 12000))
      (format_tm (lt (shifted_time (clk t) (randomInt_of (rnd k3) 1 30)
                                    (randomInt_of (rnd k4) 0 23))))
      (status_of (randomInt_of (rnd k5) 1 10)).
Proof.
  exists (rand_calls s), (1 + rand_calls s)%nat, (2 + rand_calls s)%nat,
         (3 + rand_calls s)%nat, (4 + rand_calls s)%nat, (5 + rand_calls s)%nat,
         (time_calls s).
  reflexivity.
Qed.
End Run.

(* ================================================================== *)
(** * Part V: the generated rows *)
(* ================================================================== *)

Lemma sample_world_ok : rand_ok sample_world.
Proof.
  split; [cbn; unfold INT_MAX; lia|]. intros k. cbn. unfold sample_draws.
  pose proof (Z.mod_pos_bound (Z.of_nat k * 1103515245 + 12345) 2147483648 eq_refl).
  lia.
Qed.

Section Rows.
Variable w : World.
Hypothesis Hok : rand_ok w.

Let R := w_RAND_MAX w.
Let rnd := w_rand w.

Lemma RAND_MAX_double : 0 < R < 2 ^ 53.
Proof using Hok.
  destruct Hok as [[H1 H2] _]. unfold INT_MAX in H2. unfold R.
  split; [lia|]. apply Z.le_lt_trans with 2147483647; [assumption|reflexivity].
Qed.

Lemma draw_range k : 0 <= rnd k <= R.
Proof using Hok. destruct Hok as [_ H]. apply H. Qed.

Lemma draw_int k : 0 <= rnd k <= INT_MAX.
Proof using Hok.
  destruct Hok as [[_ H2] H]. specialize (H k). unfold R, rnd. lia.
Qed.

Lemma rating_tenths k :
  exists K, 35 <= K <= 50 /\
    lam_tron (randomDouble_of R (rnd k) d_3_5 d_5_0) = d_tenth K.
Proof using Hok.
  assert (G : on_grid (-1) 7 10 (randomDouble_of R (rnd k) d_3_5 d_5_0)).
  { apply randomDouble_grid; try apply RAND_MAX_double; try apply draw_range;
      try lia; grid_const. }
  destruct (lam_tron_half_tenths _ _ _ G) as (K & HK & E); try lia.
  exists K. split; [lia|exact E].
Qed.

Lemma coord_tenths k :
  exists K, 0 <= K <= 100 /\
    lam_tron (randomDouble_of R (rnd k) (of_int 0) (of_int 10)) = d_tenth K.
Proof using Hok.
  assert (G : on_grid 0 0 10 (randomDouble_of R (rnd k) (of_int 0) (of_int 10))).
  { apply randomDouble_grid; try apply RAND_MAX_double; try apply draw_range;
      try lia; grid_const. }
  destruct (lam_tron_tenths _ _ _ G) as (K & HK & E); try lia.
  exists K. split; [lia|exact E].
Qed.

Lemma distance_tenths k :
  exists K, 20 <= K <= 120 /\
    lam_tron (randomDouble_of R (rnd k) (of_int 2) (of_int 12)) = d_tenth K.
Proof using Hok.
  assert (G : on_grid 0 2 12 (randomDouble_of R (rnd k) (of_int 2) (of_int 12))).
  { apply randomDouble_grid; try apply RAND_MAX_double; try apply draw_range;
      try lia; grid_const. }
  destruct (lam_tron_tenths _ _ _ G) as (K & HK & E); try lia.
  exists K. split; [lia|exact E].
Qed.

Lemma one_decimal_tenth K : 0 <= K <= 120 -> one_decimal (d_tenth K).
Proof. intros HK. exists K. split; [reflexivity|apply tenth_printed_all, HK]. Qed.
End Rows.

(* ================================================================== *)
(** * Part VI: the specification's claims *)
(* ================================================================== *)

(** ** Row counts *)

Lemma data_lines_written f w :
  w_can_open w (csv_path f) = true ->
  data_lines (files w (csv_path f)) = Some (Z.to_nat (csv_count f)).
Proof.
  intros Hopen. rewrite files_spec, Hopen. cbn [data_lines].
  destruct (generated_lengths w) as (H1 & H2 & H3).
  destruct f; cbn [csv_lines csv_count]; rewrite length_map; congruence.
Qed.

(** C1, as amended: in every run, each of the three files that could be
    opened for writing holds the header and then exactly as many data lines
    as its constant says: 100 for drivers.csv, 100 for customers.csv, 500 for
    rides.csv. *)
Theorem row_counts (w : World) (f : CsvFile) :
  w_can_open w (csv_path f) = true ->
  data_lines (files w (csv_path f)) =
  Some (match f with Drivers => 100 | Customers => 100 | Rides => 500 end)%nat.
Proof.
  intros Hopen. rewrite (data_lines_written f w Hopen). destruct f; reflexivity.
Qed.

Lemma row_counts_witness :
  data_lines (files sample_world (csv_path Rides)) = Some 500%nat.
Proof. exact (row_counts sample_world Rides eq_refl). Defined.

(** C1 as stated fails: when the output directory is missing no stream opens,
    nothing is written, and drivers.csv does not hold 100 data lines. *)
Lemma row_counts_need_directory :
  files no_directory_world (csv_path Drivers) = None /\
  data_lines (files no_directory_world (csv_path Drivers)) <> Some 100%nat.
Proof.
  assert (E : files no_directory_world (csv_path Drivers) = None).
  { rewrite files_spec. reflexivity. }
  rewrite E. split; [reflexivity|discriminate].
Qed.

(** ** Driver rows *)

Lemma driver_row_fields w i s :
  rand_ok w -> driver_row_ok (fst (driver_row (w_RAND_MAX w) (w_rand w) i s)).
Proof.
  intros Hok.
  destruct (driver_row_draws w i s) as (name & k1 & k2 & k3 & k4 & E). rewrite E.
  destruct (rating_tenths w Hok k1) as (K1 & HK1 & E1).
  destruct (coord_tenths w Hok k2) as (K2 & HK2 & E2).
  destruct (coord_tenths w Hok k3) as (K3 & HK3 & E3).
  unfold driver_row_ok. cbn [dr_rating dr_x dr_y dr_total].
  rewrite E1, E2, E3.
  pose proof (draw_int w Hok k4) as Hr.
  repeat split;
    try (apply rating_value; lia); try (apply coord_value; lia);
    try (apply one_decimal_tenth; lia);
    apply randomInt_of_range; unfold INT_MIN, INT_MAX in *; lia.
Qed.

(** C2: whenever [rand()] keeps its contract, every generated driver row has
    its rating in [3.5, 5.0], both coordinates in [0, 10], its ride count in
    [10, 80], and rating and coordinates are doubles rounded to one decimal
    (the double nearest to a whole number of tenths, printed with exactly
    that one decimal). *)
Theorem driver_rows_in_range (w : World) :
  rand_ok w -> Forall driver_row_ok (drivers (generated w)).
Proof.
  intros Hok. apply drivers_Forall. intros i s. apply driver_row_fields, Hok.
Qed.

Lemma driver_rows_in_range_witness :
  Forall driver_row_ok (drivers (generated sample_world)).
Proof. exact (driver_rows_in_range sample_world sample_world_ok). Defined.

(** ** Ride rows *)

Lemma ride_row_fields w i s :
  rand_ok w ->
  ride_row_shape
    (fst (ride_row (w_RAND_MAX w) (w_rand w) (w_clock w) (w_localtime w) i s)).
Proof.
  intros Hok.
  destruct (ride_row_draws w i s) as (k0 & k1 & k2 & k3 & k4 & k5 & t & E). rewrite E.
  destruct (distance_tenths w Hok k0) as (K & HK & EK).
  exists K, (randomInt_of (w_rand w k5) 1 10).
  cbn [ri_distance ri_fare ri_customer ri_driver ri_status]. rewrite EK.
  pose proof (draw_int w Hok k1). pose proof (draw_int w Hok k2).
  pose proof (draw_int w Hok k5).
  repeat split; try lia;
    apply randomInt_of_range; unfold INT_MIN, INT_MAX, SO_KHACH_HANG, SO_TAI_XE in *; lia.
Qed.

Lemma rides_shape w : rand_ok w -> Forall ride_row_shape (rides (generated w)).
Proof.
  intros Hok. apply rides_Forall. intros i s. apply ride_row_fields, Hok.
Qed.

(** C3: whenever [rand()] keeps its contract, every generated ride row has
    its customer id in [1, 100], its driver id in [1, 100] and a distance in
    [2, 12] that is a double rounded to one decimal. *)
Theorem ride_rows_in_range (w : World) :
  rand_ok w ->
  Forall (fun r =>
            1 <= ri_customer r <= 100 /\ 1 <= ri_driver r <= 100 /\
            d_between 2 12 (ri_distance r) /\ one_decimal (ri_distance r))
         (rides (generated w)).
Proof.
  intros Hok. eapply Forall_impl; [|apply rides_shape, Hok].
  intros r (K & draw & HK & Ed & _ & Hc & Hd & _).
  unfold SO_KHACH_HANG in Hc. unfold SO_TAI_XE in Hd.
  rewrite Ed. repeat split; try lia.
  - apply distance_value; lia.
  - apply distance_value; lia.
  - apply distance_value; lia.
  - apply one_decimal_tenth; lia.
Qed.

Lemma ride_rows_in_range_witness :
  Forall (fun r =>
            1 <= ri_customer r <= 100 /\ 1 <= ri_driver r <= 100 /\
            d_between 2 12 (ri_distance r) /\ one_decimal (ri_distance r))
         (rides (generated sample_world)).
Proof. exact (ride_rows_in_range sample_world sample_world_ok). Defined.

(** ** Exit status *)

(** C9: the exit status is 0 in every run, whatever the environment: whether
    or not any of the three streams could be opened. *)
Theorem exit_code_always_zero (w : World) : exit_code w = 0.
Proof.
  destruct (run_blocks w) as (s1 & a1 & a2 & a3 & Hrun). cbv zeta in Hrun.
  apply Hrun.
Qed.

(** ** [randomDouble] *)

Lemma on_grid_value b a x :
  on_grid b a a x -> (d_value x <= grid_point b a)%Q /\ (grid_point b a <= d_value x)%Q.
Proof. intros H. destruct (on_grid_between _ _ _ _ H) as (_ & H1 & H2). auto. Qed.

Lemma randomDouble_between R r b a c mn mx :
  0 < R < 2 ^ 53 -> 0 <= r <= R ->
  on_grid b a a mn -> on_grid b c c mx ->
  0 <= a <= c -> c < 2 ^ 53 -> -1074 <= b <= 971 ->
  d_between (d_value mn) (d_value mx) (randomDouble_of R r mn mx).
Proof.
  intros HR Hr Hmn Hmx Hac Hc Hb.
  pose proof (randomDouble_grid R r b a c mn mx HR Hr Hmn Hmx Hac Hc Hb) as G.
  destruct (on_grid_between _ _ _ _ G) as (Hf & Hlo & Hhi).
  destruct (on_grid_value _ _ _ Hmn) as [Hmn1 _].
  destruct (on_grid_value _ _ _ Hmx) as [_ Hmx2].
  split; [exact Hf|]. split.
  - eapply Qle_trans; eassumption.
  - eapply Qle_trans; eassumption.
Qed.

(** C7, as amended: for arguments [0 <= min < max] that are whole multiples
    [a * 2^b] and [c * 2^b] of one power of two, with [c < 2^53] (the
    program's pairs 3.5/5.0, 0/10 and 2/12 are of this kind), and for every
    result of [rand()] in [0, RAND_MAX], [randomDouble] returns a finite
    value in the closed range [min, max]; it returns [min] itself when
    [rand()] is 0 and the value of [max] when [rand()] is [RAND_MAX]. *)
Theorem randomDouble_closed_range (RAND_MAX r b a c : Z) (min max : double) :
  32767 <= RAND_MAX <= INT_MAX -> 0 <= r <= RAND_MAX ->
  on_grid b a a min -> on_grid b c c max ->
  0 <= a -> a < c -> c < 2 ^ 53 -> -1074 <= b <= 971 ->
  d_between (d_value min) (d_value max) (randomDouble_of RAND_MAX r min max) /\
  (r = 0 -> randomDouble_of RAND_MAX r min max = min) /\
  (r = RAND_MAX ->
   (d_value (randomDouble_of RAND_MAX r min max) == d_value max)%Q).
Proof.
  intros HR Hr Hmn Hmx Ha Hac Hc Hb.
  assert (HR' : 0 < RAND_MAX < 2 ^ 53).
  { unfold INT_MAX in HR. split; [lia|].
    apply Z.le_lt_trans with 2147483647; [lia|reflexivity]. }
  split; [|split].
  - apply (randomDouble_between RAND_MAX r b a c); try assumption; lia.
  - intros ->. apply (randomDouble_bottom RAND_MAX b a c); try assumption; lia.
  - intros ->.
    pose proof (randomDouble_grid_top RAND_MAX b a c min max HR' Hmn Hmx
                  ltac:(lia) Hc Hb) as G.
    destruct (on_grid_value _ _ _ G) as [G1 G2].
    destruct (on_grid_value _ _ _ Hmx) as [M1 M2].
    apply Qle_antisym; eapply Qle_trans; eassumption.
Qed.

Lemma randomDouble_closed_range_witness :
  d_between (d_value d_3_5) (d_value d_5_0)
            (randomDouble_of 2147483647 2147483647 d_3_5 d_5_0) /\
  (2147483647 = 0 -> randomDouble_of 2147483647 2147483647 d_3_5 d_5_0 = d_3_5) /\
  (2147483647 = 2147483647 ->
   (d_value (randomDouble_of 2147483647 2147483647 d_3_5 d_5_0) == d_value d_5_0)%Q).
Proof.
  apply (randomDouble_closed_range 2147483647 2147483647 (-1) 7 10 d_3_5 d_5_0).
  - unfold INT_MAX. lia.
  - lia.
  - apply on_gridb_sound. vm_compute. reflexivity.
  - apply on_gridb_sound. vm_compute. reflexivity.
  - lia.
  - lia.
  - reflexivity.
  - lia.
Defined.

(** C7 as stated fails: when [rand()] returns [RAND_MAX], [randomDouble(0, 10)]
    is exactly 10, which is not strictly below the upper bound.  For general
    arguments even the closed range breaks: with [min = -1 + 2^-53] and
    [max = 2^-54] the same draw gives [2^-53], above [max]. *)
Lemma randomDouble_reaches_max :
  randomDouble_of 2147483647 2147483647 (of_int 0) (of_int 10) = of_int 10 /\
  ~ (d_value (randomDouble_of 2147483647 2147483647 (of_int 0) (of_int 10))
     < d_value (of_int 10))%Q /\
  (d_value (S754_finite false (2 ^ 52) (-106))
   < d_value (randomDouble_of 2147483647 2147483647
                (S754_finite true (2 ^ 53 - 1) (-53))
                (S754_finite false (2 ^ 52) (-106))))%Q.
Proof.
  assert (E : randomDouble_of 2147483647 2147483647 (of_int 0) (of_int 10) = of_int 10)
    by (vm_compute; reflexivity).
  split; [exact E|]. split.
  - rewrite E. apply Qlt_irrefl.
  - vm_compute. reflexivity.
Qed.

(** ** [randomInt] *)

Lemma count_randomInt R min max j :
  0 <= R <= INT_MAX -> INT_MIN <= min -> min <= max -> max <= INT_MAX ->
  max - min < INT_MAX -> 0 <= j <= max - min ->
  Z.of_nat (count_draws R (fun r => randomInt_of r min max =? min + j))
  = (R - j) / (max - min + 1) + 1.
Proof.
  intros HR Hmin Hle Hmax Hn Hj. unfold count_draws.
  rewrite (filter_ext_range _ (fun r => r mod (max - min + 1) =? j)).
  - rewrite count_residue by lia. rewrite Z2Nat.id by lia.
    replace (R + 1 + (max - min + 1) - 1 - j) with ((R - j) + 1 * (max - min + 1)) by lia.
    rewrite Z.div_add by lia. reflexivity.
  - intros r Hr. apply Zrange_bounds in Hr.
    rewrite randomInt_of_mod by lia.
    destruct (Z.eqb_spec (r mod (max - min + 1)) j) as [E|E].
    + apply Z.eqb_eq. lia.
    + apply Z.eqb_neq. lia.
Qed.

(** C8, as amended: for [int] bounds [min <= max] whose span [max - min + 1]
    fits in an [int], [randomInt] returns a value of [min .. max] for every
    result of [rand()] in [0, RAND_MAX], and the value [min + j] is returned
    for exactly [(RAND_MAX - j) / (max - min + 1) + 1] of the [RAND_MAX + 1]
    possible results: the values are equally likely only up to one draw. *)
Theorem randomInt_range_and_counts (RAND_MAX min max : Z) :
  0 <= RAND_MAX <= INT_MAX -> INT_MIN <= min -> min <= max -> max <= INT_MAX ->
  max - min < INT_MAX ->
  (forall r, 0 <= r <= RAND_MAX -> min <= randomInt_of r min max <= max) /\
  (forall j, 0 <= j <= max - min ->
     Z.of_nat (count_draws RAND_MAX (fun r => randomInt_of r min max =? min + j))
     = (RAND_MAX - j) / (max - min + 1) + 1).
Proof.
  intros HR Hmin Hle Hmax Hn. split.
  - intros r Hr. apply randomInt_of_range; lia.
  - intros j Hj. apply count_randomInt; assumption.
Qed.

Lemma randomInt_range_and_counts_witness :
  (forall r, 0 <= r <= 32767 -> 10 <= randomInt_of r 10 80 <= 80) /\
  (forall j, 0 <= j <= 80 - 10 ->
     Z.of_nat (count_draws 32767 (fun r => randomInt_of r 10 80 =? 10 + j))
     = (32767 - j) / (80 - 10 + 1) + 1).
Proof.
  apply (randomInt_range_and_counts 32767 10 80); unfold INT_MIN, INT_MAX; lia.
Defined.

(** C8 as stated fails: with glibc's [RAND_MAX = 2147483647],
    [randomInt(10, 80)] returns 10 for 30246249 of the possible results of
    [rand()] and 80 for 30246248 of them, so the values are not equally
    likely; and for [min = INT_MIN], [max = INT_MAX] the divisor
    [max - min + 1] wraps to zero. *)
Lemma randomInt_not_uniform :
  count_draws 2147483647 (fun r => randomInt_of r 10 80 =? 10)
  <> count_draws 2147483647 (fun r => randomInt_of r 10 80 =? 80) /\
  int_add (int_sub INT_MAX INT_MIN) 1 = 0.
Proof.
  split; [|reflexivity].
  assert (H1 : 0 <= 2147483647 <= INT_MAX) by (unfold INT_MAX; lia).
  assert (H2 : INT_MIN <= 10) by (unfold INT_MIN; lia).
  assert (H3 : 80 <= INT_MAX) by (unfold INT_MAX; lia).
  assert (H4 : 80 - 10 < INT_MAX) by (unfold INT_MAX; lia).
  assert (E0 := count_randomInt 2147483647 10 80 0 H1 H2 ltac:(lia) H3 H4 ltac:(lia)).
  assert (E70 := count_randomInt 2147483647 10 80 70 H1 H2 ltac:(lia) H3 H4 ltac:(lia)).
  change (10 + 0) with 10 in E0. change (10 + 70) with 80 in E70.
  intros E. rewrite E, E70 in E0. clear - E0.
  vm_compute in E0. discriminate.
Qed.

(** ** Timestamps *)

Lemma sinh_timestamp_run rnd clk lt d s :
  fst (sinh_timestamp rnd clk lt d s) =
  format_tm (lt (shifted_time (clk (time_calls s)) d
                              (randomInt_of (rnd (rand_calls s)) 0 23))).
Proof. reflexivity. Qed.

Lemma stamp_of_instant lt now d h :
  - 24855 <= d <= 24854 -> 0 <= h <= 23 -> - 2 ^ 62 <= now <= 2 ^ 62 ->
  stamp_shape lt (now - d * 86400 - h * 3600)
              (format_tm (lt (shifted_time now d h))).
Proof.
  intros Hd Hh Hnow. rewrite shifted_time_exact by assumption.
  split; [reflexivity|]. apply format_tm_shape.
Qed.

(** C6, as amended: whenever [rand()] keeps its contract and the clock reads
    within 2^62 seconds of the epoch, (1) for every [days_back] from -24855
    to 24854, the range in which [days_back * 86400 + hours * 3600] does not
    overflow an [int], the timestamp generator formats the local time of
    [now - days_back * 86400 - h * 3600] for an [h] in [0, 23], where [now]
    is the clock read in that call; (2) the text has the shape
    YYYY-MM-DDTHH:MM:SS, all digits, whenever [localtime] returns fields in
    their standard ranges and a year from 1000 to 9999; (3) every generated
    ride row carries the timestamp of an instant later than [now - 31 days]
    and no later than [now - 1 day]. *)
Theorem timestamps_in_the_past (w : World) :
  rand_ok w ->
  (forall t, - 2 ^ 62 <= w_clock w t <= 2 ^ 62) ->
  (forall d s, - 24855 <= d <= 24854 ->
     exists h, 0 <= h <= 23 /\
       let now := w_clock w (time_calls s) in
       stamp_shape (w_localtime w) (now - d * 86400 - h * 3600)
         (fst (sinh_timestamp (w_rand w) (w_clock w) (w_localtime w) d s))) /\
  Forall (fun r =>
            exists t instant,
              w_clock w t - 31 * 86400 < instant <= w_clock w t - 86400 /\
              stamp_shape (w_localtime w) instant (ri_timestamp r))
         (rides (generated w)).
Proof.
  intros Hok Hclk. split.
  - intros d s Hd.
    pose proof (draw_int w Hok (rand_calls s)) as Hr.
    exists (randomInt_of (w_rand w (rand_calls s)) 0 23).
    assert (Hh : 0 <= randomInt_of (w_rand w (rand_calls s)) 0 23 <= 23)
      by (apply randomInt_of_range; unfold INT_MIN, INT_MAX in *; lia).
    split; [exact Hh|]. cbv zeta. rewrite sinh_timestamp_run.
    apply stamp_of_instant; [assumption|assumption|apply Hclk].
  - apply rides_Forall. intros i s.
    destruct (ride_row_draws w i s) as (k0 & k1 & k2 & k3 & k4 & k5 & t & E).
    rewrite E. cbn [ri_timestamp].
    pose proof (draw_int w Hok k3) as Hr3. pose proof (draw_int w Hok k4) as Hr4.
    assert (Hd : 1 <= randomInt_of (w_rand w k3) 1 30 <= 30)
      by (apply randomInt_of_range; unfold INT_MIN, INT_MAX in *; lia).
    assert (Hh : 0 <= randomInt_of (w_rand w k4) 0 23 <= 23)
      by (apply randomInt_of_range; unfold INT_MIN, INT_MAX in *; lia).
    exists t, (w_clock w t - randomInt_of (w_rand w k3) 1 30 * 86400
               - randomInt_of (w_rand w k4) 0 23 * 3600).
    split; [lia|]. apply stamp_of_instant; [lia|assumption|apply Hclk].
Qed.

Lemma sample_clock_ok t : - 2 ^ 62 <= w_clock sample_world t <= 2 ^ 62.
Proof. cbn [w_clock sample_world]. change (2 ^ 62) with 4611686018427387904. lia. Qed.

Lemma timestamps_in_the_past_witness :
  (forall d s, - 24855 <= d <= 24854 ->
     exists h, 0 <= h <= 23 /\
       let now := w_clock sample_world (time_calls s) in
       stamp_shape (w_localtime sample_world) (now - d * 86400 - h * 3600)
         (fst (sinh_timestamp (w_rand sample_world) (w_clock sample_world)
                              (w_localtime sample_world) d s))) /\
  Forall (fun r =>
            exists t instant,
              w_clock sample_world t - 31 * 86400 < instant
                <= w_clock sample_world t - 86400 /\
              stamp_shape (w_localtime sample_world) instant (ri_timestamp r))
         (rides (generated sample_world)).
Proof. exact (timestamps_in_the_past sample_world sample_world_ok sample_clock_ok). Defined.

(** C6 as stated fails for large [days_back]: with [days_back = 30000] the
    [int] product [30000 * 86400] overflows, and at clock 1800000000
    (2027-01-15) the generator returns a date in 2081 where the claim has one
    in 1944, whatever the hour offset. *)
Lemma timestamp_overflow :
  let text := fst (sinh_timestamp (fun _ => 0) (fun _ => 1800000000) utc_time 30000
                                  (start (fun _ => None))) in
  text = "2081-01-01T14:28:16" /\
  format_tm (utc_time (1800000000 - 30000 * 86400)) = "1944-11-26T08:00:00" /\
  forall h, 0 <= h <= 23 ->
    text <> format_tm (utc_time (1800000000 - 30000 * 86400 - h * 3600)).
Proof.
  cbv zeta.
  assert (E : fst (sinh_timestamp (fun _ => 0) (fun _ => 1800000000) utc_time 30000
                                  (start (fun _ => None))) = "2081-01-01T14:28:16")
    by (vm_compute; reflexivity).
  rewrite E. split; [reflexivity|]. split; [vm_compute; reflexivity|].
  intros h Hh Heq.
  assert (C : stamp_differs "2081-01-01T14:28:16" 1800000000 30000 h = true).
  { apply (Zrange_forallb (stamp_differs "2081-01-01T14:28:16" 1800000000 30000) 0 24);
      [vm_compute; reflexivity|lia]. }
  unfold stamp_differs in C. rewrite <- Heq, String.eqb_refl in C. discriminate.
Qed.

(* ================================================================== *)
(** * Part VII: further properties of the code *)
(* ================================================================== *)

(** ** Names and customer rows *)

Lemma at_index_In (a : list string) (i : Z) :
  0 <= i < Z.of_nat (List.length a) -> In (at_index a i) a.
Proof. intros Hi. unfold at_index. apply nth_In. lia. Qed.

Lemma sinh_ten_run rnd s :
  fst (sinh_ten rnd s) =
  at_index HO (randomInt_of (rnd (S (S (rand_calls s)))) 0 9) ++ " " ++
  at_index TEN_DEM (randomInt_of (rnd (S (rand_calls s))) 0 9) ++ " " ++
  at_index TEN (randomInt_of (rnd (rand_calls s)) 0 19).
Proof. reflexivity. Qed.

Lemma sinh_ten_ok w s : rand_ok w -> name_ok (fst (sinh_ten (w_rand w) s)).
Proof.
  intros Hok. rewrite sinh_ten_run.
  pose proof (draw_int w Hok (rand_calls s)) as H0.
  pose proof (draw_int w Hok (S (rand_calls s))) as H1.
  pose proof (draw_int w Hok (S (S (rand_calls s)))) as H2.
  eexists _, _, _. repeat split.
  - apply at_index_In. cbn [HO Datatypes.length].
    pose proof (randomInt_of_range (w_rand w (S (S (rand_calls s)))) 0 9).
    unfold INT_MIN, INT_MAX in *. lia.
  - apply at_index_In. cbn [TEN_DEM Datatypes.length].
    pose proof (randomInt_of_range (w_rand w (S (rand_calls s))) 0 9).
    unfold INT_MIN, INT_MAX in *. lia.
  - apply at_index_In. cbn [TEN Datatypes.length].
    pose proof (randomInt_of_range (w_rand w (rand_calls s)) 0 19).
    unfold INT_MIN, INT_MAX in *. lia.
Qed.

Lemma driver_row_name R rnd i s :
  dr_name (fst (driver_row R rnd i s)) = fst (sinh_ten rnd s).
Proof. reflexivity. Qed.

Lemma customer_row_name R rnd i s :
  cu_name (fst (customer_row R rnd i s)) = fst (sinh_ten rnd s).
Proof. reflexivity. Qed.

(** X1: whenever [rand()] keeps its contract, [sinh_ten] never indexes a
    table out of range: the name of every generated driver and customer is a
    surname of [HO], a middle name of [TEN_DEM] and a given name of [TEN],
    joined by single spaces. *)
Theorem names_from_tables (w : World) :
  rand_ok w ->
  (forall s, name_ok (fst (sinh_ten (w_rand w) s))) /\
  Forall (fun d => name_ok (dr_name d)) (drivers (generated w)) /\
  Forall (fun c => name_ok (cu_name c)) (customers (generated w)).
Proof.
  intros Hok. split; [|split].
  - intros s. apply sinh_ten_ok, Hok.
  - apply drivers_Forall. intros i s. rewrite driver_row_name. apply sinh_ten_ok, Hok.
  - apply customers_Forall. intros i s. rewrite customer_row_name. apply sinh_ten_ok, Hok.
Qed.

Lemma names_from_tables_witness :
  (forall s, name_ok (fst (sinh_ten (w_rand sample_world) s))) /\
  Forall (fun d => name_ok (dr_name d)) (drivers (generated sample_world)) /\
  Forall (fun c => name_ok (cu_name c)) (customers (generated sample_world)).
Proof. exact (names_from_tables sample_world sample_world_ok). Defined.

(** X2: whenever [rand()] keeps its contract, every generated customer row
    has a district of the ten in [QUAN] and both coordinates in [0, 10],
    each a double rounded to one decimal. *)
Theorem customer_rows_in_range (w : World) :
  rand_ok w ->
  Forall (fun c =>
            In (cu_district c) QUAN /\
            d_between 0 10 (cu_x c) /\ d_between 0 10 (cu_y c) /\
            one_decimal (cu_x c) /\ one_decimal (cu_y c))
         (customers (generated w)).
Proof.
  intros Hok. apply customers_Forall. intros i s.
  destruct (customer_row_draws w i s) as (name & k0 & k1 & k2 & E). rewrite E.
  cbn [cu_district cu_x cu_y].
  destruct (coord_tenths w Hok k1) as (K1 & HK1 & E1).
  destruct (coord_tenths w Hok k2) as (K2 & HK2 & E2).
  rewrite E1, E2. pose proof (draw_int w Hok k0) as Hr.
  split; [|repeat split; try (apply coord_value; lia); apply one_decimal_tenth; lia].
  apply at_index_In. cbn [QUAN Datatypes.length].
  pose proof (randomInt_of_range (w_rand w k0) 0 9).
  unfold INT_MIN, INT_MAX in *. lia.
Qed.

Lemma customer_rows_in_range_witness :
  Forall (fun c =>
            In (cu_district c) QUAN /\
            d_between 0 10 (cu_x c) /\ d_between 0 10 (cu_y c) /\
            one_decimal (cu_x c) /\ one_decimal (cu_y c))
         (customers (generated sample_world)).
Proof. exact (customer_rows_in_range sample_world sample_world_ok). Defined.

(** ** Identifiers *)

Lemma Zrange_cons lo n : Zrange lo (S n) = lo :: Zrange (lo + 1) n.
Proof.
  unfold Zrange. cbn [seq map]. f_equal; [lia|].
  rewrite <- seq_shift, map_map. apply map_ext. intros k. lia.
Qed.

Lemma for_count_ids {A} (id : A -> Z) (body : Z -> M A) :
  (forall i s, id (fst (body i s)) = i) ->
  forall n i s, map id (fst (for_count n i body s)) = Zrange i n.
Proof.
  intros Hid. induction n as [|n IH]; intros i s; [reflexivity|].
  rewrite for_count_S, Zrange_cons. cbn [fst map]. rewrite Hid, IH. reflexivity.
Qed.

Lemma block_ids {A} (id : A -> Z) can (row : Z -> M A) line path header announce count s :
  (forall i s', id (fst (row i s')) = i) ->
  map id (fst (csv_block can path header announce count row line s))
  = Zrange 1 (Z.to_nat count).
Proof.
  intros Hid. rewrite csv_block_run. cbv zeta. cbn [fst].
  apply for_count_ids. intros i s'. rewrite emit_run. apply Hid.
Qed.

(** X3: in every run the identifiers are the loop counter: the drivers are
    numbered 1 to 100, the customers 1 to 100 and the rides 1 to 500, in the
    order they are written. *)
Theorem ids_are_sequential (w : World) :
  map dr_id (drivers (generated w)) = Zrange 1 100 /\
  map cu_id (customers (generated w)) = Zrange 1 100 /\
  map ri_id (rides (generated w)) = Zrange 1 500.
Proof.
  destruct (run_blocks w) as (s1 & a1 & a2 & a3 & Hrun). cbv zeta in Hrun.
  destruct Hrun as (_ & Hgen & _). rewrite Hgen. cbn [drivers customers rides].
  rewrite !block_ids by (intros; reflexivity). repeat split.
Qed.

(** ** The state after a run *)

Lemma run_eq (w : World) :
  run w =
  let b1 := csv_block (w_can_open w) (csv_path Drivers) driver_header
              ("Dang sinh " ++ show_int SO_TAI_XE ++ " tai xe..." ++ String "010" "")
              SO_TAI_XE (driver_row (w_RAND_MAX w) (w_rand w)) driver_line
              (after_banner (w_clock w) (start (w_disk w))) in
  let b2 := csv_block (w_can_open w) (csv_path Customers) customer_header
              ("Dang sinh " ++ show_int SO_KHACH_HANG ++ " khach hang..." ++ String "010" "")
              SO_KHACH_HANG (customer_row (w_RAND_MAX w) (w_rand w)) customer_line
              (snd b1) in
  let b3 := csv_block (w_can_open w) (csv_path Rides) ride_header
              ("Dang sinh " ++ show_int SO_CHUYEN_DI ++ " chuyen di..." ++ String "010" "")
              SO_CHUYEN_DI
              (ride_row (w_RAND_MAX w) (w_rand w) (w_clock w) (w_localtime w)) ride_line
              (snd b2) in
  ((0, mk_generated (fst b1) (fst b2) (fst b3)), after_closing (snd b3)).
Proof. unfold run. rewrite main_blocks_eq, main_blocks_run. reflexivity. Qed.

(** What a loop of [emit] does to the counters and to the console. *)
Section Counters.
Context {A : Type}.
Variable row : Z -> M A.
Variable line : A -> string.
Variables kr kt : nat.
Hypothesis row_rand : forall i s, rand_calls (snd (row i s)) = (kr + rand_calls s)%nat.
Hypothesis row_time : forall i s, time_calls (snd (row i s)) = (kt + time_calls s)%nat.
Hypothesis row_cout : forall i s, cout (snd (row i s)) = cout s.

Lemma put_line_counters f text s :
  rand_calls (snd (put_line f text s)) = rand_calls s /\
  time_calls (snd (put_line f text s)) = time_calls s /\
  cout (snd (put_line f text s)) = cout s.
Proof.
  unfold put_line. destruct (os_open f); [|auto].
  destruct (fs s (os_path f)); auto.
Qed.

Lemma emit_loop_counters f n :
  forall i s,
    let s' := snd (for_count n i (emit f row line) s) in
    rand_calls s' = (n * kr + rand_calls s)%nat /\
    time_calls s' = (n * kt + time_calls s)%nat /\
    cout s' = cout s.
Proof using row_rand row_time row_cout.
  induction n as [|n IH]; intros i s; [cbn; auto|].
  cbv zeta. rewrite for_count_S. cbn [snd].
  destruct (IH (i + 1) (snd (emit f row line i s))) as (I1 & I2 & I3).
  rewrite I1, I2, I3, emit_run. cbn [snd].
  destruct (put_line_counters f (line (fst (row i s))) (snd (row i s))) as (P1 & P2 & P3).
  rewrite P1, P2, P3, row_rand, row_time, row_cout. repeat split; lia.
Qed.

Lemma csv_block_counters can path header announce count s :
  let s' := snd (csv_block can path header announce count row line s) in
  rand_calls s' = (Z.to_nat count * kr + rand_calls s)%nat /\
  time_calls s' = (Z.to_nat count * kt + time_calls s)%nat /\
  cout s' = (cout s ++ [announce; ("  -> " ++ path ++ String "010" "")%string])%list.
Proof using row_rand row_time row_cout.
  cbv zeta. rewrite csv_block_run. cbv zeta. cbn [snd].
  set (o := open can path s).
  set (sp := snd (print announce (snd (put_line (fst o) header (snd o))))).
  destruct (emit_loop_counters (fst o) (Z.to_nat count) 1 sp) as (L1 & L2 & L3).
  cbv zeta in L1, L2, L3.
  unfold print. cbn [snd rand_calls time_calls cout]. rewrite L1, L2, L3.
  assert (Ho : rand_calls (snd o) = rand_calls s /\ time_calls (snd o) = time_calls s /\
               cout (snd o) = cout s).
  { unfold o, open. destruct (can path); cbn; auto. }
  destruct Ho as (O1 & O2 & O3).
  destruct (put_line_counters (fst o) header (snd o)) as (P1 & P2 & P3).
  unfold sp, print. cbn [snd rand_calls time_calls cout].
  rewrite P1, P2, P3, O1, O2, O3, <- app_assoc. repeat split.
Qed.
End Counters.

Lemma after_banner_state clk s :
  rand_calls (after_banner clk s) = rand_calls s /\
  time_calls (after_banner clk s) = S (time_calls s) /\
  cout (after_banner clk s) =
    List.app (cout s)
      [String "010" "";
       "========================================" ++ String "010" "";
       "   MINRIDE DATA GENERATOR" ++ String "010" "";
       "========================================" ++ String "010" (String "010" "")] /\
  fs (after_banner clk s) = fs s.
Proof.
  unfold after_banner, print, srand, ret, time. cbn [fst snd rand_calls time_calls cout fs].
  rewrite <- !app_assoc. repeat split.
Qed.

Lemma after_closing_state s :
  rand_calls (after_closing s) = rand_calls s /\
  time_calls (after_closing s) = time_calls s /\
  cout (after_closing s) =
    List.app (cout s)
      [String "010" "" ++ "========================================" ++ String "010" "";
       "   HOAN THANH!" ++ String "010" "";
       "========================================" ++ String "010" (String "010" "")] /\
  fs (after_closing s) = fs s.
Proof.
  unfold after_closing, print. cbn [fst snd rand_calls time_calls cout fs].
  rewrite <- !app_assoc. repeat split.
Qed.

(** The counters and the console at the end of a run. *)
Lemma run_counters (w : World) :
  rand_calls (snd (run w)) = 4300%nat /\
  time_calls (snd (run w)) = 501%nat /\
  cout (snd (run w)) =
    [String "010" "";
     "========================================" ++ String "010" "";
     "   MINRIDE DATA GENERATOR" ++ String "010" "";
     "========================================" ++ String "010" (String "010" "");
     "Dang sinh 100 tai xe..." ++ String "010" "";
     "  -> ../MinRide/Data/drivers.csv" ++ String "010" "";
     "Dang sinh 100 khach hang..." ++ String "010" "";
     "  -> ../MinRide/Data/customers.csv" ++ String "010" "";
     "Dang sinh 500 chuyen di..." ++ String "010" "";
     "  -> ../MinRide/Data/rides.csv" ++ String "010" "";
     String "010" "" ++ "========================================" ++ String "010" "";
     "   HOAN THANH!" ++ String "010" "";
     "========================================" ++ String "010" (String "010" "")].
Proof.
  rewrite run_eq. cbv zeta. cbn [snd].
  set (s0 := after_banner (w_clock w) (start (w_disk w))).
  destruct (after_banner_state (w_clock w) (start (w_disk w))) as (B1 & B2 & B3 & _).
  fold s0 in B1, B2, B3.
  set (b1 := csv_block _ (csv_path Drivers) _ _ _ _ _ s0).
  destruct (csv_block_counters (driver_row (w_RAND_MAX w) (w_rand w)) driver_line 7 0
              ltac:(reflexivity) ltac:(reflexivity) ltac:(reflexivity)
              (w_can_open w) (csv_path Drivers) driver_header
              ("Dang sinh " ++ show_int SO_TAI_XE ++ " tai xe..." ++ String "010" "")
              SO_TAI_XE s0) as (R1 & T1 & C1).
  cbv zeta in R1, T1, C1. fold b1 in R1, T1, C1.
  set (b2 := csv_block _ (csv_path Customers) _ _ _ _ _ (snd b1)).
  destruct (csv_block_counters (customer_row (w_RAND_MAX w) (w_rand w)) customer_line 6 0
              ltac:(reflexivity) ltac:(reflexivity) ltac:(reflexivity)
              (w_can_open w) (csv_path Customers) customer_header
              ("Dang sinh " ++ show_int SO_KHACH_HANG ++ " khach hang..." ++ String "010" "")
              SO_KHACH_HANG (snd b1)) as (R2 & T2 & C2).
  cbv zeta in R2, T2, C2. fold b2 in R2, T2, C2.
  set (b3 := csv_block _ (csv_path Rides) _ _ _ _ _ (snd b2)).
  destruct (csv_block_counters
              (ride_row (w_RAND_MAX w) (w_rand w) (w_clock w) (w_localtime w)) ride_line 6 1
              ltac:(reflexivity) ltac:(reflexivity) ltac:(reflexivity)
              (w_can_open w) (csv_path Rides) ride_header
              ("Dang sinh " ++ show_int SO_CHUYEN_DI ++ " chuyen di..." ++ String "010" "")
              SO_CHUYEN_DI (snd b2)) as (R3 & T3 & C3).
  cbv zeta in R3, T3, C3. fold b3 in R3, T3, C3.
  destruct (after_closing_state (snd b3)) as (A1 & A2 & A3 & _).
  rewrite A1, A2, A3, R3, T3, C3, R2, T2, C2, R1, T1, C1, B1, B2, B3.
  repeat split.
Qed.

(** X5: what the program prints does not depend on the run: a banner, then
    for each file the announcement and the line [-> path], then the closing
    banner.  The line [-> path] is printed also for a file that could not be
    opened. *)
Theorem console_is_fixed (w : World) :
  console w =
    [String "010" "";
     "========================================" ++ String "010" "";
     "   MINRIDE DATA GENERATOR" ++ String "010" "";
     "========================================" ++ String "010" (String "010" "");
     "Dang sinh 100 tai xe..." ++ String "010" "";
     "  -> ../MinRide/Data/drivers.csv" ++ String "010" "";
     "Dang sinh 100 khach hang..." ++ String "010" "";
     "  -> ../MinRide/Data/customers.csv" ++ String "010" "";
     "Dang sinh 500 chuyen di..." ++ String "010" "";
     "  -> ../MinRide/Data/rides.csv" ++ String "010" "";
     String "010" "" ++ "========================================" ++ String "010" "";
     "   HOAN THANH!" ++ String "010" "";
     "========================================" ++ String "010" (String "010" "")].
Proof. unfold console. apply run_counters. Qed.

(** X6: every run makes exactly 4300 calls of [rand()] (7 for each driver,
    6 for each customer, 6 for each ride) and 501 calls of [time()] (one for
    the seed, one for each ride), whether or not the files open. *)
Theorem draws_consumed (w : World) :
  rand_calls (snd (run w)) = 4300%nat /\ time_calls (snd (run w)) = 501%nat.
Proof. destruct (run_counters w) as (H1 & H2 & _). auto. Qed.

(** ** The files after a run *)

(** X4: a file whose stream opened holds, after the run, exactly the header
    followed by the text of each generated row in order; what was at that
    path before is gone. *)
Theorem written_file_contents (w : World) (f : CsvFile) :
  w_can_open w (csv_path f) = true ->
  files w (csv_path f) = Some (csv_header f :: csv_lines f (generated w)).
Proof. intros Hopen. rewrite files_spec, Hopen. reflexivity. Qed.

Lemma written_file_contents_witness :
  files sample_world (csv_path Drivers)
  = Some (csv_header Drivers :: csv_lines Drivers (generated sample_world)).
Proof. exact (written_file_contents sample_world Drivers eq_refl). Defined.

Lemma files_cases (w : World) (q : string) :
  files w q =
  if w_can_open w (csv_path Rides) && String.eqb q (csv_path Rides)
  then Some (ride_header :: csv_lines Rides (generated w))
  else if w_can_open w (csv_path Customers) && String.eqb q (csv_path Customers)
  then Some (customer_header :: csv_lines Customers (generated w))
  else if w_can_open w (csv_path Drivers) && String.eqb q (csv_path Drivers)
  then Some (driver_header :: csv_lines Drivers (generated w))
  else w_disk w q.
Proof.
  unfold files, generated. rewrite run_eq. cbv zeta. cbn [fst snd csv_lines drivers customers rides].
  destruct (after_closing_state
              (snd (csv_block (w_can_open w) (csv_path Rides) ride_header
                ("Dang sinh " ++ show_int SO_CHUYEN_DI ++ " chuyen di..." ++ String "010" "")
                SO_CHUYEN_DI
                (ride_row (w_RAND_MAX w) (w_rand w) (w_clock w) (w_localtime w)) ride_line
                (snd (csv_block (w_can_open w) (csv_path Customers) customer_header
                  ("Dang sinh " ++ show_int SO_KHACH_HANG ++ " khach hang..." ++ String "010" "")
                  SO_KHACH_HANG (customer_row (w_RAND_MAX w) (w_rand w)) customer_line
                  (snd (csv_block (w_can_open w) (csv_path Drivers) driver_header
                    ("Dang sinh " ++ show_int SO_TAI_XE ++ " tai xe..." ++ String "010" "")
                    SO_TAI_XE (driver_row (w_RAND_MAX w) (w_rand w)) driver_line
                    (after_banner (w_clock w) (start (w_disk w)))))))))) as (_ & _ & _ & F).
  rewrite F.
  rewrite (csv_block_files (w_can_open w) _ _ (ride_row_keeps w)).
  rewrite (csv_block_files (w_can_open w) _ _ (customer_row_keeps w)).
  rewrite (csv_block_files (w_can_open w) _ _ (driver_row_keeps w)).
  destruct (after_banner_state (w_clock w) (start (w_disk w))) as (_ & _ & _ & F0).
  rewrite F0. reflexivity.
Qed.

(** X7: the run touches nothing but the output files it could open: a file
    whose stream failed to open, and every other path, is after the run as it
    was on disk before. *)
Theorem other_paths_untouched (w : World) (q : string) :
  (forall f, q = csv_path f -> w_can_open w q = false) ->
  files w q = w_disk w q.
Proof.
  intros Hq. rewrite files_cases.
  destruct (String.eqb_spec q (csv_path Rides)) as [E|_].
  { rewrite <- E, (Hq Rides E). cbn [andb].
    destruct (String.eqb_spec q (csv_path Customers)) as [E2|_];
      [rewrite <- E2; rewrite (Hq Rides E)|rewrite andb_false_r]; cbn [andb].
    - destruct (String.eqb_spec q (csv_path Drivers)) as [E3|_];
        [rewrite <- E3, (Hq Rides E)|rewrite andb_false_r]; reflexivity.
    - destruct (String.eqb_spec q (csv_path Drivers)) as [E3|_];
        [rewrite <- E3, (Hq Rides E)|rewrite andb_false_r]; reflexivity. }
  rewrite andb_false_r.
  destruct (String.eqb_spec q (csv_path Customers)) as [E|_].
  { rewrite <- E, (Hq Customers E). cbn [andb].
    destruct (String.eqb_spec q (csv_path Drivers)) as [E3|_];
      [rewrite <- E3, (Hq Customers E)|rewrite andb_false_r]; reflexivity. }
  rewrite andb_false_r.
  destruct (String.eqb_spec q (csv_path Drivers)) as [E|_].
  { rewrite <- E, (Hq Drivers E). reflexivity. }
  rewrite andb_false_r. reflexivity.
Qed.

Lemma other_paths_untouched_witness :
  files no_directory_world (csv_path Rides) = w_disk no_directory_world (csv_path Rides).
Proof.
  apply (other_paths_untouched no_directory_world (csv_path Rides)).
  intros f _. reflexivity.
Defined.

(** ** Generation does not depend on the files *)

Lemma put_line_same_counters f text s : same_counters (snd (put_line f text s)) s.
Proof. destruct (put_line_counters f text s) as (H1 & H2 & _). split; assumption. Qed.

Lemma same_counters_trans s1 s2 s3 :
  same_counters s1 s2 -> same_counters s2 s3 -> same_counters s1 s3.
Proof. intros [A1 A2] [B1 B2]. split; congruence. Qed.

Lemma same_counters_sym s1 s2 : same_counters s1 s2 -> same_counters s2 s1.
Proof. intros [A1 A2]. split; congruence. Qed.

Lemma emit_loop_indep {A} (row : Z -> M A) line line' f f' n :
  counters_only row ->
  forall i s s', same_counters s s' ->
    fst (for_count n i (emit f row line) s) = fst (for_count n i (emit f' row line') s') /\
    same_counters (snd (for_count n i (emit f row line) s))
                  (snd (for_count n i (emit f' row line') s')).
Proof.
  intros Hrow. induction n as [|n IH]; intros i s s' Hs; [cbn; auto|].
  rewrite !for_count_S. cbn [fst snd].
  destruct (Hrow i s s' Hs) as [Ev Es].
  assert (Hs1 : same_counters (snd (emit f row line i s)) (snd (emit f' row line' i s'))).
  { rewrite !emit_run. cbn [snd].
    eapply same_counters_trans; [apply put_line_same_counters|].
    eapply same_counters_trans; [exact Es|].
    apply same_counters_sym, put_line_same_counters. }
  destruct (IH (i + 1) _ _ Hs1) as [I1 I2].
  rewrite !emit_run in *. cbn [fst snd] in *.
  split; [rewrite I1, Ev; reflexivity|exact I2].
Qed.

Lemma open_same_counters can path s : same_counters (snd (open can path s)) s.
Proof. unfold open. destruct (can path); split; reflexivity. Qed.

Lemma csv_block_indep {A} (row : Z -> M A) line can can' path header announce count s s' :
  counters_only row -> same_counters s s' ->
  fst (csv_block can path header announce count row line s)
  = fst (csv_block can' path header announce count row line s') /\
  same_counters (snd (csv_block can path header announce count row line s))
                (snd (csv_block can' path header announce count row line s')).
Proof.
  intros Hrow Hs. rewrite !csv_block_run. cbv zeta. cbn [fst snd].
  set (o := open can path s). set (o' := open can' path s').
  assert (Hp : same_counters (snd (print announce (snd (put_line (fst o) header (snd o)))))
                             (snd (print announce (snd (put_line (fst o') header (snd o')))))).
  { assert (P : forall t x, same_counters (snd (print t x)) x) by (intros; split; reflexivity).
    eapply same_counters_trans; [apply P|].
    eapply same_counters_trans; [apply put_line_same_counters|].
    eapply same_counters_trans; [apply open_same_counters|].
    eapply same_counters_trans; [exact Hs|].
    apply same_counters_sym.
    eapply same_counters_trans; [apply P|].
    eapply same_counters_trans; [apply put_line_same_counters|].
    apply open_same_counters. }
  destruct (emit_loop_indep row line line (fst o) (fst o') (Z.to_nat count) Hrow 1 _ _ Hp)
    as [L1 L2].
  split; [exact L1|]. destruct L2 as [L2a L2b]. split; assumption.
Qed.

Lemma driver_row_counters_only R rnd : counters_only (driver_row R rnd).
Proof.
  intros i [r t c f] [r' t' c' f'] [E1 E2]. cbn in E1, E2. subst.
  split; [reflexivity|split; reflexivity].
Qed.

Lemma customer_row_counters_only R rnd : counters_only (customer_row R rnd).
Proof.
  intros i [r t c f] [r' t' c' f'] [E1 E2]. cbn in E1, E2. subst.
  split; [reflexivity|split; reflexivity].
Qed.

Lemma ride_row_counters_only R rnd clk lt : counters_only (ride_row R rnd clk lt).
Proof.
  intros i [r t c f] [r' t' c' f'] [E1 E2]. cbn in E1, E2. subst.
  split; [reflexivity|split; reflexivity].
Qed.

(** X8: the rows generated do not depend on the file system: with the same
    [RAND_MAX], draws, clock and calendar, a run generates the same drivers,
    customers and rides whichever files can be opened and whatever is on
    disk. *)
Theorem generation_ignores_files (w : World) (can' : string -> bool) (disk' : FileSystem) :
  generated (mk_world (w_RAND_MAX w) (w_rand w) (w_clock w) (w_localtime w) can' disk')
  = generated w.
Proof.
  unfold generated. rewrite !run_eq. cbv zeta.
  cbn [fst snd w_RAND_MAX w_rand w_clock w_localtime w_can_open w_disk].
  assert (H0 : same_counters (after_banner (w_clock w) (start disk'))
                             (after_banner (w_clock w) (start (w_disk w))))
    by (split; reflexivity).
  destruct (csv_block_indep (driver_row (w_RAND_MAX w) (w_rand w)) driver_line
              can' (w_can_open w) (csv_path Drivers) driver_header
              ("Dang sinh " ++ show_int SO_TAI_XE ++ " tai xe..." ++ String "010" "")
              SO_TAI_XE _ _ (driver_row_counters_only _ _) H0) as [E1 H1].
  destruct (csv_block_indep (customer_row (w_RAND_MAX w) (w_rand w)) customer_line
              can' (w_can_open w) (csv_path Customers) customer_header
              ("Dang sinh " ++ show_int SO_KHACH_HANG ++ " khach hang..." ++ String "010" "")
              SO_KHACH_HANG _ _ (customer_row_counters_only _ _) H1) as [E2 H2].
  destruct (csv_block_indep
              (ride_row (w_RAND_MAX w) (w_rand w) (w_clock w) (w_localtime w)) ride_line
              can' (w_can_open w) (csv_path Rides) ride_header
              ("Dang sinh " ++ show_int SO_CHUYEN_DI ++ " chuyen di..." ++ String "010" "")
              SO_CHUYEN_DI _ _ (ride_row_counters_only _ _ _ _) H2) as [E3 _].
  rewrite E1, E2, E3. reflexivity.
Qed.

(** ** Rounding twice *)

(** X9: [lam_tron] changes nothing it has already rounded: for every whole
    number of tenths [K] from 0 to 1000 (values 0.0 to 100.0), rounding the
    double nearest [K / 10] gives that same double. *)
Theorem lam_tron_idempotent (K : Z) :
  0 <= K <= 1000 -> lam_tron (d_tenth K) = d_tenth K.
Proof.
  intros HK. apply d_same_eq.
  apply (Zrange_forallb lam_tron_fixed 0 (Z.to_nat 1001)); [vm_compute; reflexivity|lia].
Qed.

Lemma lam_tron_idempotent_witness : lam_tron (d_tenth 42) = d_tenth 42.
Proof. apply (lam_tron_idempotent 42). lia. Defined.

(** ** The bias of the modulo draw *)

Lemma count_bounds R n j :
  0 <= R -> 0 < n -> 0 <= j < n -> (R + 1) / n <= (R - j) / n + 1 <= R / n + 1.
Proof.
  intros HR Hn Hj. split.
  - replace ((R - j) / n + 1) with ((R - j + 1 * n) / n) by (rewrite Z.div_add; lia).
    apply Z.div_le_mono; lia.
  - assert ((R - j) / n <= R / n) by (apply Z.div_le_mono; lia). lia.
Qed.

Lemma div_succ_le R n : 0 <= R -> 0 < n -> R / n <= (R + 1) / n <= R / n + 1.
Proof.
  intros HR Hn. split.
  - apply Z.div_le_mono; lia.
  - replace (R / n + 1) with ((R + 1 * n) / n) by (rewrite Z.div_add; lia).
    apply Z.div_le_mono; lia.
Qed.

(** X10: under the conditions of C8, any two values of [min .. max] are
    returned by numbers of [rand()] results that differ by at most one, and
    when [max - min + 1] divides [RAND_MAX + 1] every value is returned by
    exactly [(RAND_MAX + 1) / (max - min + 1)] of them. *)
Theorem randomInt_bias_at_most_one (RAND_MAX min max j1 j2 : Z) :
  0 <= RAND_MAX <= INT_MAX -> INT_MIN <= min -> min <= max -> max <= INT_MAX ->
  max - min < INT_MAX -> 0 <= j1 <= max - min -> 0 <= j2 <= max - min ->
  let count j := Z.of_nat (count_draws RAND_MAX (fun r => randomInt_of r min max =? min + j)) in
  Z.abs (count j1 - count j2) <= 1 /\
  ((RAND_MAX + 1) mod (max - min + 1) = 0 ->
   count j1 = (RAND_MAX + 1) / (max - min + 1)).
Proof.
  intros HR Hmin Hle Hmax Hn H1 H2. cbv beta zeta.
  rewrite !count_randomInt by assumption.
  set (n := max - min + 1).
  pose proof (count_bounds RAND_MAX n j1 ltac:(lia) ltac:(unfold n; lia) ltac:(unfold n; lia)) as B1.
  pose proof (count_bounds RAND_MAX n j2 ltac:(lia) ltac:(unfold n; lia) ltac:(unfold n; lia)) as B2.
  pose proof (div_succ_le RAND_MAX n ltac:(lia) ltac:(unfold n; lia)) as B3.
  split.
  - destruct (Z.eq_dec ((RAND_MAX + 1) / n) (RAND_MAX / n + 1)) as [E|E]; lia.
  - intros Hdiv.
    assert (Hq : RAND_MAX + 1 = n * ((RAND_MAX + 1) / n)).
    { pose proof (Z.div_mod (RAND_MAX + 1) n ltac:(unfold n; lia)). lia. }
    set (q := (RAND_MAX + 1) / n) in *.
    replace (RAND_MAX - j1) with ((q - 1) * n + (n - 1 - j1)) by lia.
    rewrite Z.div_add_l by (unfold n; lia).
    rewrite Z.div_small by (unfold n; lia). lia.
Qed.

Lemma randomInt_bias_at_most_one_witness :
  let count j := Z.of_nat (count_draws 32767 (fun r => randomInt_of r 0 7 =? 0 + j)) in
  Z.abs (count 0 - count 7) <= 1 /\
  ((32767 + 1) mod (7 - 0 + 1) = 0 -> count 0 = (32767 + 1) / (7 - 0 + 1)).
Proof.
  apply (randomInt_bias_at_most_one 32767 0 7 0 7); unfold INT_MIN, INT_MAX; lia.
Defined.

(** ** The lines are well-formed CSV *)

Lemma count_char_app c s1 s2 :
  count_char c (s1 ++ s2) = (count_char c s1 + count_char c s2)%nat.
Proof.
  induction s1 as [|a s1 IH]; [reflexivity|]. cbn [append count_char]. rewrite IH. lia.
Qed.

Lemma uint_plain c d : csv_special c -> count_char c (NilEmpty.string_of_uint d) = 0%nat.
Proof.
  intros Hc. induction d; cbn [NilEmpty.string_of_uint count_char]; rewrite ?IHd;
    destruct Hc as [-> | ->]; reflexivity.
Qed.

Lemma show_int_plain c z : csv_special c -> count_char c (show_int z) = 0%nat.
Proof.
  intros Hc. unfold show_int, NilZero.string_of_int, NilZero.string_of_uint.
  destruct (Z.to_int z) as [d|d].
  - destruct d; try apply uint_plain; try assumption. destruct Hc as [-> | ->]; reflexivity.
  - cbn [count_char].
    replace (Ascii.eqb "-" c) with false by (destruct Hc as [-> | ->]; reflexivity).
    destruct d; try apply uint_plain; try assumption. destruct Hc as [-> | ->]; reflexivity.
Qed.

Lemma zeros_plain c n : csv_special c -> count_char c (zeros n) = 0%nat.
Proof.
  intros Hc. induction n as [|n IH]; [reflexivity|]. cbn [zeros append count_char].
  rewrite IH. destruct Hc as [-> | ->]; reflexivity.
Qed.

Lemma show_int_width_plain c n z :
  csv_special c -> count_char c (show_int_width n z) = 0%nat.
Proof.
  intros Hc. unfold show_int_width. rewrite count_char_app, zeros_plain, show_int_plain; auto.
Qed.

Lemma show_decimal_plain c p n : csv_special c -> count_char c (show_decimal p n) = 0%nat.
Proof.
  intros Hc. unfold show_decimal. destruct p; [apply show_int_plain, Hc|].
  rewrite !count_char_app, show_int_plain, show_int_width_plain by assumption.
  destruct Hc as [-> | ->]; reflexivity.
Qed.

Lemma show_fixed_plain c p x : csv_special c -> count_char c (show_fixed p x) = 0%nat.
Proof.
  intros Hc. destruct x as [s|s| |s m e]; cbn [show_fixed].
  - rewrite count_char_app, show_decimal_plain by assumption.
    destruct s; destruct Hc as [-> | ->]; reflexivity.
  - destruct s; destruct Hc as [-> | ->]; reflexivity.
  - destruct Hc as [-> | ->]; reflexivity.
  - rewrite count_char_app, show_decimal_plain by assumption.
    destruct s; destruct Hc as [-> | ->]; reflexivity.
Qed.

Lemma format_tm_plain c t : csv_special c -> count_char c (format_tm t) = 0%nat.
Proof.
  intros Hc. unfold format_tm.
  rewrite !count_char_app, !show_int_width_plain, show_int_plain by assumption.
  destruct Hc as [-> | ->]; reflexivity.
Qed.

Lemma table_plain c (table : list string) s :
  forallb (fun t => Nat.eqb (count_char c t) 0) table = true ->
  In s table -> count_char c s = 0%nat.
Proof.
  intros Hall Hin. rewrite forallb_forall in Hall. apply Nat.eqb_eq, Hall, Hin.
Qed.

Lemma name_plain c name : csv_special c -> name_ok name -> count_char c name = 0%nat.
Proof.
  intros Hc (ho & dem & ten & H1 & H2 & H3 & ->).
  rewrite !count_char_app.
  rewrite (table_plain c HO ho), (table_plain c TEN_DEM dem), (table_plain c TEN ten);
    try assumption; destruct Hc as [-> | ->]; reflexivity.
Qed.

Lemma status_plain c draw : csv_special c -> count_char c (status_of draw) = 0%nat.
Proof.
  intros Hc. unfold status_of. destruct (draw <=? 8); destruct Hc as [-> | ->]; reflexivity.
Qed.

Lemma driver_line_count c d :
  csv_special c -> name_ok (dr_name d) ->
  count_char c (driver_line d) = if Ascii.eqb c "," then 5%nat else 0%nat.
Proof.
  intros Hc Hn. unfold driver_line. rewrite !count_char_app.
  rewrite !show_int_plain, !show_fixed_plain, (name_plain c _ Hc Hn) by exact Hc.
  destruct Hc as [-> | ->]; reflexivity.
Qed.

Lemma customer_line_count c r :
  csv_special c -> name_ok (cu_name r) -> In (cu_district r) QUAN ->
  count_char c (customer_line r) = if Ascii.eqb c "," then 4%nat else 0%nat.
Proof.
  intros Hc Hn Hd. unfold customer_line. rewrite !count_char_app.
  rewrite !show_int_plain, !show_fixed_plain, (name_plain c _ Hc Hn) by exact Hc.
  rewrite (table_plain c QUAN (cu_district r));
    [|destruct Hc as [-> | ->]; reflexivity|exact Hd].
  destruct Hc as [-> | ->]; reflexivity.
Qed.

Lemma ride_line_count c r (lt : Z -> tm) instant draw :
  csv_special c ->
  ri_timestamp r = format_tm (lt instant) -> ri_status r = status_of draw ->
  count_char c (ride_line r) = if Ascii.eqb c "," then 6%nat else 0%nat.
Proof.
  intros Hc Ht Hs. unfold ride_line. rewrite Ht, Hs, !count_char_app.
  rewrite !show_int_plain, !show_fixed_plain, format_tm_plain, status_plain by exact Hc.
  destruct Hc as [-> | ->]; reflexivity.
Qed.

Lemma driver_line_fields d :
  name_ok (dr_name d) ->
  count_char "," (driver_line d) = 5%nat /\ count_char "010" (driver_line d) = 0%nat.
Proof.
  intros Hn. split.
  - apply (driver_line_count "," d (or_introl eq_refl) Hn).
  - apply (driver_line_count "010" d (or_intror eq_refl) Hn).
Qed.

Lemma customer_line_fields c :
  name_ok (cu_name c) -> In (cu_district c) QUAN ->
  count_char "," (customer_line c) = 4%nat /\ count_char "010" (customer_line c) = 0%nat.
Proof.
  intros Hn Hd. split.
  - apply (customer_line_count "," c (or_introl eq_refl) Hn Hd).
  - apply (customer_line_count "010" c (or_intror eq_refl) Hn Hd).
Qed.

Lemma ride_line_fields r (lt : Z -> tm) instant draw :
  ri_timestamp r = format_tm (lt instant) -> ri_status r = status_of draw ->
  count_char "," (ride_line r) = 6%nat /\ count_char "010" (ride_line r) = 0%nat.
Proof.
  intros Ht Hs. split.
  - apply (ride_line_count "," r lt instant draw (or_introl eq_refl) Ht Hs).
  - apply (ride_line_count "010" r lt instant draw (or_intror eq_refl) Ht Hs).
Qed.

(** X11: whenever [rand()] keeps its contract, every line of every file, the
    header included, has the same number of fields: no generated name,
    district, number, timestamp or status contains a comma or a newline, so
    a driver line has exactly 5 commas, a customer line 4 and a ride line 6,
    and none holds a newline. *)
Theorem lines_are_well_formed (w : World) (f : CsvFile) :
  rand_ok w ->
  Forall (fun l => count_char "," l = csv_commas f /\ count_char "010" l = 0%nat)
         (csv_header f :: csv_lines f (generated w)).
Proof.
  intros Hok. constructor; [destruct f; split; reflexivity|].
  destruct f; cbn [csv_lines csv_commas]; apply Forall_map.
  - apply drivers_Forall. intros i s. apply driver_line_fields.
    rewrite driver_row_name. apply sinh_ten_ok, Hok.
  - apply customers_Forall. intros i s.
    destruct (customer_row_draws w i s) as (name & k0 & k1 & k2 & E).
    apply customer_line_fields.
    + rewrite customer_row_name. apply sinh_ten_ok, Hok.
    + rewrite E. cbn [cu_district]. apply at_index_In. cbn [QUAN Datatypes.length].
      pose proof (draw_int w Hok k0).
      pose proof (randomInt_of_range (w_rand w k0) 0 9).
      unfold INT_MIN, INT_MAX in *. lia.
  - apply rides_Forall. intros i s.
    destruct (ride_row_draws w i s) as (k0 & k1 & k2 & k3 & k4 & k5 & t & E).
    rewrite E. eapply ride_line_fields; reflexivity.
Qed.

Lemma lines_are_well_formed_witness :
  Forall (fun l => count_char "," l = csv_commas Rides /\ count_char "010" l = 0%nat)
         (csv_header Rides :: csv_lines Rides (generated sample_world)).
Proof. exact (lines_are_well_formed sample_world Rides sample_world_ok). Defined.

(** ** The text of the numeric fields *)

Lemma tenth_text_all K : 0 <= K <= 120 -> show_fixed 1 (d_tenth K) = tenths_text K.
Proof.
  intros HK. apply String.eqb_eq.
  apply (Zrange_forallb tenth_text_ok 0 121); [vm_compute; reflexivity|lia].
Qed.

Lemma fare_text_all K :
  20 <= K <= 120 -> show_fixed 0 (fare_of (d_tenth K)) = show_int (1200 * K).
Proof.
  intros HK. apply String.eqb_eq.
  apply (Zrange_forallb fare_text_ok 20 101); [vm_compute; reflexivity|lia].
Qed.


(* ================================================================== *)
(** * Part VIII: the lines as written, field by field *)
(* ================================================================== *)

(** ** Splitting a line into its fields *)

Lemma csv_fields_last a : count_char "," a = 0%nat -> csv_fields a = [a].
Proof.
  induction a as [|c a IH]; [reflexivity|]. cbn [count_char csv_fields].
  destruct (Ascii.eqb c ","); [discriminate|]. cbn [Nat.add]. intros H.
  rewrite (IH H). reflexivity.
Qed.

Lemma csv_fields_cons a rest :
  count_char "," a = 0%nat -> csv_fields (a ++ "," ++ rest) = a :: csv_fields rest.
Proof.
  induction a as [|c a IH]; [reflexivity|]. cbn [count_char append csv_fields].
  destruct (Ascii.eqb c ","); [discriminate|]. cbn [Nat.add]. intros H.
  cbn [append] in IH. rewrite (IH H). reflexivity.
Qed.

Lemma comma_special : csv_special ",".
Proof. left. reflexivity. Qed.

Lemma driver_line_csv d :
  name_ok (dr_name d) ->
  csv_fields (driver_line d) =
  [show_int (dr_id d); dr_name d; show_fixed 1 (dr_rating d);
   show_fixed 1 (dr_x d); show_fixed 1 (dr_y d); show_int (dr_total d)].
Proof.
  intros Hn. unfold driver_line.
  rewrite csv_fields_cons by (apply show_int_plain, comma_special).
  rewrite csv_fields_cons by (apply name_plain; [apply comma_special|exact Hn]).
  rewrite !csv_fields_cons by (apply show_fixed_plain, comma_special).
  rewrite csv_fields_last by (apply show_int_plain, comma_special).
  reflexivity.
Qed.

Lemma ride_line_csv r (lt : Z -> tm) instant draw :
  ri_timestamp r = format_tm (lt instant) -> ri_status r = status_of draw ->
  csv_fields (ride_line r) =
  [show_int (ri_id r); show_int (ri_customer r); show_int (ri_driver r);
   show_fixed 1 (ri_distance r); show_fixed 0 (ri_fare r);
   ri_timestamp r; ri_status r].
Proof.
  intros Ht Hs. unfold ride_line.
  rewrite !csv_fields_cons by (apply show_int_plain, comma_special).
  rewrite !csv_fields_cons by (apply show_fixed_plain, comma_special).
  rewrite csv_fields_cons by (rewrite Ht; apply format_tm_plain, comma_special).
  rewrite csv_fields_last by (rewrite Hs; apply status_plain, comma_special).
  reflexivity.
Qed.

(** The columns of rides.csv the claims speak of. *)
Lemma ride_columns line l :
  csv_fields line = l ->
  field_of ride_header "Distance" line = nth_error l 3 /\
  field_of ride_header "Fare" line = nth_error l 4 /\
  field_of ride_header "Status" line = nth_error l 6.
Proof. intros <-. repeat split. Qed.

(** ** The row a loop produces at a given iteration *)

Section Iterations.
Context {A : Type}.
Variable row : Z -> M A.
Variable line : A -> string.
Variables kr kt : nat.
Hypothesis row_rand : forall i s, rand_calls (snd (row i s)) = (kr + rand_calls s)%nat.
Hypothesis row_time : forall i s, time_calls (snd (row i s)) = (kt + time_calls s)%nat.

Lemma for_count_nth f N :
  forall n i s, (n < N)%nat ->
    exists sn,
      nth_error (fst (for_count N i (emit f row line) s)) n
      = Some (fst (row (i + Z.of_nat n) sn)) /\
      rand_calls sn = (n * kr + rand_calls s)%nat /\
      time_calls sn = (n * kt + time_calls s)%nat.
Proof using row_rand row_time.
  induction N as [|N IH]; intros n i s Hn; [lia|].
  rewrite for_count_S. cbn [fst]. destruct n as [|n].
  - exists s. cbn [nth_error]. replace (i + Z.of_nat 0) with i by lia.
    repeat split.
  - destruct (IH n (i + 1) (snd (emit f row line i s)) ltac:(lia)) as (sn & E & Hr & Ht).
    exists sn. cbn [nth_error]. rewrite E.
    replace (i + 1 + Z.of_nat n) with (i + Z.of_nat (S n)) by lia.
    split; [reflexivity|].
    rewrite emit_run in Hr, Ht. cbn [snd] in Hr, Ht.
    destruct (put_line_counters f (line (fst (row i s))) (snd (row i s))) as (P1 & P2 & _).
    rewrite P1, row_rand in Hr. rewrite P2, row_time in Ht. split; lia.
Qed.

Lemma csv_block_nth can path header announce count s n :
  (n < Z.to_nat count)%nat ->
  exists sn,
    nth_error (fst (csv_block can path header announce count row line s)) n
    = Some (fst (row (1 + Z.of_nat n) sn)) /\
    rand_calls sn = (n * kr + rand_calls s)%nat /\
    time_calls sn = (n * kt + time_calls s)%nat.
Proof using row_rand row_time.
  intros Hn. rewrite csv_block_run. cbv zeta. cbn [fst].
  set (o := open can path s).
  set (sp := snd (print announce (snd (put_line (fst o) header (snd o))))).
  destruct (for_count_nth (fst o) (Z.to_nat count) n 1 sp Hn) as (sn & E & Hr & Ht).
  exists sn. split; [exact E|].
  assert (Hsp : rand_calls sp = rand_calls s /\ time_calls sp = time_calls s).
  { unfold sp, print. cbn [snd rand_calls time_calls].
    destruct (put_line_counters (fst o) header (snd o)) as (P1 & P2 & _).
    rewrite P1, P2. unfold o, open. destruct (can path); split; reflexivity. }
  destruct Hsp as [S1 S2]. rewrite S1 in Hr. rewrite S2 in Ht. split; assumption.
Qed.
End Iterations.

Lemma ride_row_explicit R rnd clk lt i s :
  fst (ride_row R rnd clk lt i s) =
  mk_ride i (randomInt_of (rnd (1 + rand_calls s)%nat) 1 SO_KHACH_HANG)
    (randomInt_of (rnd (2 + rand_calls s)%nat) 1 SO_TAI_XE)
    (lam_tron (randomDouble_of R (rnd (rand_calls s)) (of_int 2) (of_int 12)))
    (d_mul (lam_tron (randomDouble_of R (rnd (rand_calls s)) (of_int 2) (of_int 12)))
           (of_int 12000))
    (format_tm (lt (shifted_time (clk (time_calls s))
                                 (randomInt_of (rnd (3 + rand_calls s)%nat) 1 30)
                                 (randomInt_of (rnd (4 + rand_calls s)%nat) 0 23))))
    (status_of (randomInt_of (rnd (5 + rand_calls s)%nat) 1 10)).
Proof. reflexivity. Qed.

(** The state in which the ride of each rank is generated: the drivers took
    700 draws and the customers 600, each earlier ride 6 draws and one clock
    reading, and the seed one clock reading. *)
Lemma ride_nth (w : World) (n : nat) :
  (n < 500)%nat ->
  exists sn,
    nth_error (rides (generated w)) n
    = Some (fst (ride_row (w_RAND_MAX w) (w_rand w) (w_clock w) (w_localtime w)
                          (1 + Z.of_nat n) sn)) /\
    rand_calls sn = (1300 + 6 * n)%nat /\ time_calls sn = (1 + n)%nat.
Proof.
  intros Hn. unfold generated. rewrite run_eq. cbv zeta. cbn [fst snd rides].
  set (s0 := after_banner (w_clock w) (start (w_disk w))).
  destruct (after_banner_state (w_clock w) (start (w_disk w))) as (B1 & B2 & _).
  fold s0 in B1, B2.
  set (b1 := csv_block _ (csv_path Drivers) _ _ _ _ _ s0).
  destruct (csv_block_counters (driver_row (w_RAND_MAX w) (w_rand w)) driver_line 7 0
              ltac:(reflexivity) ltac:(reflexivity) ltac:(reflexivity)
              (w_can_open w) (csv_path Drivers) driver_header
              ("Dang sinh " ++ show_int SO_TAI_XE ++ " tai xe..." ++ String "010" "")
              SO_TAI_XE s0) as (R1 & T1 & _).
  cbv zeta in R1, T1. fold b1 in R1, T1.
  set (b2 := csv_block _ (csv_path Customers) _ _ _ _ _ (snd b1)).
  destruct (csv_block_counters (customer_row (w_RAND_MAX w) (w_rand w)) customer_line 6 0
              ltac:(reflexivity) ltac:(reflexivity) ltac:(reflexivity)
              (w_can_open w) (csv_path Customers) customer_header
              ("Dang sinh " ++ show_int SO_KHACH_HANG ++ " khach hang..." ++ String "010" "")
              SO_KHACH_HANG (snd b1)) as (R2 & T2 & _).
  cbv zeta in R2, T2. fold b2 in R2, T2.
  destruct (csv_block_nth
              (ride_row (w_RAND_MAX w) (w_rand w) (w_clock w) (w_localtime w)) ride_line 6 1
              ltac:(reflexivity) ltac:(reflexivity)
              (w_can_open w) (csv_path Rides) ride_header
              ("Dang sinh " ++ show_int SO_CHUYEN_DI ++ " chuyen di..." ++ String "010" "")
              SO_CHUYEN_DI (snd b2) n) as (sn & E & Hr & Ht).
  { change (Z.to_nat SO_CHUYEN_DI) with 500%nat. exact Hn. }
  exists sn. split; [exact E|].
  rewrite R2, R1, B1 in Hr. rewrite T2, T1, B2 in Ht.
  change (Z.to_nat SO_KHACH_HANG) with 100%nat in Hr, Ht.
  change (Z.to_nat SO_TAI_XE) with 100%nat in Hr, Ht.
  cbn [start rand_calls time_calls] in Hr, Ht. split; lia.
Qed.

(** ** The fields of a generated line *)

(** The seven fields of the line written for a generated ride: the distance
    as a number of tenths with one digit after the point, the fare as the
    integer 1200 times that number. *)
Lemma ride_row_written w i s :
  rand_ok w ->
  exists K,
    20 <= K <= 120 /\
    ri_distance (fst (ride_row (w_RAND_MAX w) (w_rand w) (w_clock w) (w_localtime w) i s))
    = d_tenth K /\
    csv_fields
      (ride_line (fst (ride_row (w_RAND_MAX w) (w_rand w) (w_clock w) (w_localtime w) i s)))
    = [show_int i;
       show_int (randomInt_of (w_rand w (1 + rand_calls s)%nat) 1 SO_KHACH_HANG);
       show_int (randomInt_of (w_rand w (2 + rand_calls s)%nat) 1 SO_TAI_XE);
       tenths_text K; show_int (1200 * K);
       format_tm (w_localtime w
                    (shifted_time (w_clock w (time_calls s))
                       (randomInt_of (w_rand w (3 + rand_calls s)%nat) 1 30)
                       (randomInt_of (w_rand w (4 + rand_calls s)%nat) 0 23)));
       status_of (randomInt_of (w_rand w (5 + rand_calls s)%nat) 1 10)].
Proof.
  intros Hok.
  destruct (distance_tenths w Hok (rand_calls s)) as (K & HK & EK).
  exists K. split; [exact HK|].
  rewrite ride_row_explicit. cbn [ri_distance]. split; [exact EK|].
  erewrite ride_line_csv; [|reflexivity|reflexivity].
  cbn [ri_id ri_customer ri_driver ri_distance ri_fare ri_timestamp ri_status].
  rewrite EK.
  change (d_mul (d_tenth K) (of_int 12000)) with (fare_of (d_tenth K)).
  rewrite tenth_text_all by lia. rewrite fare_text_all by exact HK.
  reflexivity.
Qed.

Lemma rides_written w :
  rand_ok w ->
  Forall (fun r =>
            exists K draw,
              20 <= K <= 120 /\ ri_distance r = d_tenth K /\
              ri_fare r = d_mul (ri_distance r) (of_int 12000) /\
              1 <= draw <= 10 /\ ri_status r = status_of draw /\
              csv_fields (ride_line r) =
              [show_int (ri_id r); show_int (ri_customer r); show_int (ri_driver r);
               tenths_text K; show_int (1200 * K); ri_timestamp r; ri_status r])
         (rides (generated w)).
Proof.
  intros Hok. apply rides_Forall. intros i s.
  destruct (ride_row_written w i s Hok) as (K & HK & Ed & El).
  exists K, (randomInt_of (w_rand w (5 + rand_calls s)%nat) 1 10).
  split; [exact HK|]. split; [exact Ed|]. split; [reflexivity|].
  split.
  { apply randomInt_of_range; try (unfold INT_MIN, INT_MAX; lia).
    apply draw_int, Hok. }
  split; [reflexivity|]. rewrite El. reflexivity.
Qed.

(** The six fields of the line written for a generated driver. *)
Lemma drivers_written w :
  rand_ok w ->
  Forall (fun d =>
            exists K X Y,
              35 <= K <= 50 /\ 0 <= X <= 100 /\ 0 <= Y <= 100 /\
              dr_rating d = d_tenth K /\ dr_x d = d_tenth X /\ dr_y d = d_tenth Y /\
              csv_fields (driver_line d) =
              [show_int (dr_id d); dr_name d; tenths_text K; tenths_text X;
               tenths_text Y; show_int (dr_total d)])
         (drivers (generated w)).
Proof.
  intros Hok. apply drivers_Forall. intros i s.
  assert (Hn : name_ok (dr_name (fst (driver_row (w_RAND_MAX w) (w_rand w) i s)))).
  { rewrite driver_row_name. apply sinh_ten_ok, Hok. }
  rewrite (driver_line_csv _ Hn).
  destruct (driver_row_draws w i s) as (name & k1 & k2 & k3 & k4 & E). rewrite E.
  destruct (rating_tenths w Hok k1) as (K1 & HK1 & E1).
  destruct (coord_tenths w Hok k2) as (K2 & HK2 & E2).
  destruct (coord_tenths w Hok k3) as (K3 & HK3 & E3).
  exists K1, K2, K3. cbn [dr_id dr_name dr_rating dr_x dr_y dr_total].
  rewrite E1, E2, E3. rewrite !tenth_text_all by lia.
  repeat split; lia.
Qed.

(** The product the source computes in doubles is not always a whole number:
    for the distance 2.3 it falls just below 27600. *)
Lemma fare_in_memory_not_whole : fare_of (d_tenth 23) <> of_int 27600.
Proof. vm_compute. discriminate. Qed.

(** C4: whenever [rand()] keeps its contract, for every generated ride the
    fare kept in memory is the unrounded product [Distance * 12000], and the
    Fare field of the line written for it is the integer
    [round (Distance * 12000)]: the integer [setprecision(0)] prints the
    product as, and exactly 12000 times the Distance field of the same
    line.  When rides.csv can be opened, it holds the header and these
    lines. *)
Theorem fare_is_rounded_product (w : World) :
  rand_ok w ->
  Forall (fun r =>
            ri_fare r = d_mul (ri_distance r) (of_int 12000) /\
            exists K F,
              fixed_field 0 (ri_fare r) = Some F /\
              d_round (d_mul (ri_distance r) (of_int 12000)) = of_int F /\
              field_of ride_header "Fare" (ride_line r) = Some (show_int F) /\
              field_of ride_header "Distance" (ride_line r) = Some (tenths_text K) /\
              (inject_Z F == (K # 10) * 12000)%Q)
         (rides (generated w)) /\
  (w_can_open w (csv_path Rides) = true ->
   files w (csv_path Rides) = Some (ride_header :: map ride_line (rides (generated w)))).
Proof.
  intros Hok. split.
  - eapply Forall_impl; [|apply rides_written, Hok].
    intros r (K & draw & HK & Ed & Ef & _ & _ & El).
    destruct (ride_columns _ _ El) as (C3 & C4 & _).
    split; [exact Ef|]. exists K, (1200 * K). rewrite Ef, Ed.
    split; [apply fare_printed_all, HK|].
    split; [apply fare_rounded_all, HK|].
    split; [rewrite C4; reflexivity|].
    split; [rewrite C3; reflexivity|].
    unfold Qeq, inject_Z, Qmult. cbn [Qnum Qden]. lia.
  - intros Hopen. rewrite (files_spec w Rides), Hopen. reflexivity.
Qed.

Lemma fare_is_rounded_product_witness :
  Forall (fun r =>
            ri_fare r = d_mul (ri_distance r) (of_int 12000) /\
            exists K F,
              fixed_field 0 (ri_fare r) = Some F /\
              d_round (d_mul (ri_distance r) (of_int 12000)) = of_int F /\
              field_of ride_header "Fare" (ride_line r) = Some (show_int F) /\
              field_of ride_header "Distance" (ride_line r) = Some (tenths_text K) /\
              (inject_Z F == (K # 10) * 12000)%Q)
         (rides (generated sample_world)) /\
  files sample_world (csv_path Rides)
  = Some (ride_header :: map ride_line (rides (generated sample_world))).
Proof.
  exact (conj (proj1 (fare_is_rounded_product sample_world sample_world_ok))
              (proj2 (fare_is_rounded_product sample_world sample_world_ok) eq_refl)).
Defined.

(** C5: whenever [rand()] keeps its contract, the status of the ride of
    rank [n] is decided by the [rand()] call numbered [1305 + 6 * n], the
    last of the six the ride makes: the draw [1 + rand() % 10] lies in
    [1, 10], the status is CONFIRMED when the draw is at most 8 and
    CANCELLED when it is 9 or 10, and this text is the Status field of the
    line written for the ride.  So every status is one of the two, and 8 of
    the 10 values of the draw give CONFIRMED. *)
Theorem status_from_draw (w : World) :
  rand_ok w ->
  (forall n, (n < 500)%nat ->
     exists r, nth_error (rides (generated w)) n = Some r /\
       let draw := randomInt_of (w_rand w (1305 + 6 * n)%nat) 1 10 in
       draw = 1 + w_rand w (1305 + 6 * n)%nat mod 10 /\
       1 <= draw <= 10 /\
       ri_status r = (if draw <=? 8 then "CONFIRMED" else "CANCELLED") /\
       (ri_status r = "CONFIRMED" <-> draw <= 8) /\
       (ri_status r = "CANCELLED" <-> 9 <= draw) /\
       field_of ride_header "Status" (ride_line r) = Some (ri_status r)) /\
  Forall (fun r => ri_status r = "CONFIRMED" \/ ri_status r = "CANCELLED")
         (rides (generated w)) /\
  List.length (filter (fun d => String.eqb (status_of d) "CONFIRMED") (Zrange 1 10))
  = 8%nat /\
  (w_can_open w (csv_path Rides) = true ->
   files w (csv_path Rides) = Some (ride_header :: map ride_line (rides (generated w)))).
Proof.
  intros Hok. split; [|split; [|split; [reflexivity|]]].
  - intros n Hn. destruct (ride_nth w n Hn) as (sn & E & Hr & _).
    eexists. split; [exact E|]. cbv zeta.
    destruct (ride_row_written w (1 + Z.of_nat n) sn Hok) as (K & _ & _ & El).
    destruct (ride_columns _ _ El) as (_ & _ & C6).
    rewrite C6. rewrite ride_row_explicit. cbn [ri_status nth_error].
    replace (5 + rand_calls sn)%nat with (1305 + 6 * n)%nat by lia.
    pose proof (draw_int w Hok (1305 + 6 * n)%nat) as Hd.
    assert (Em : randomInt_of (w_rand w (1305 + 6 * n)%nat) 1 10
                 = 1 + w_rand w (1305 + 6 * n)%nat mod 10).
    { rewrite randomInt_of_mod; unfold INT_MIN, INT_MAX in *; try lia. reflexivity. }
    pose proof (Z.mod_pos_bound (w_rand w (1305 + 6 * n)%nat) 10 ltac:(lia)) as Hm.
    split; [exact Em|]. split; [lia|]. unfold status_of.
    destruct (Z.leb_spec (randomInt_of (w_rand w (1305 + 6 * n)%nat) 1 10) 8) as [Hle|Hgt].
    + repeat split; try reflexivity; try lia; try discriminate.
    + repeat split; try reflexivity; try lia; try discriminate.
  - eapply Forall_impl; [|apply rides_written, Hok].
    intros r (K & draw & _ & _ & _ & _ & Es & _). rewrite Es. unfold status_of.
    destruct (draw <=? 8); [left|right]; reflexivity.
  - intros Hopen. rewrite (files_spec w Rides), Hopen. reflexivity.
Qed.

Lemma status_from_draw_witness :
  (forall n, (n < 500)%nat ->
     exists r, nth_error (rides (generated sample_world)) n = Some r /\
       let draw := randomInt_of (w_rand sample_world (1305 + 6 * n)%nat) 1 10 in
       draw = 1 + w_rand sample_world (1305 + 6 * n)%nat mod 10 /\
       1 <= draw <= 10 /\
       ri_status r = (if draw <=? 8 then "CONFIRMED" else "CANCELLED") /\
       (ri_status r = "CONFIRMED" <-> draw <= 8) /\
       (ri_status r = "CANCELLED" <-> 9 <= draw) /\
       field_of ride_header "Status" (ride_line r) = Some (ri_status r)) /\
  Forall (fun r => ri_status r = "CONFIRMED" \/ ri_status r = "CANCELLED")
         (rides (generated sample_world)) /\
  List.length (filter (fun d => String.eqb (status_of d) "CONFIRMED") (Zrange 1 10))
  = 8%nat /\
  files sample_world (csv_path Rides)
  = Some (ride_header :: map ride_line (rides (generated sample_world))).
Proof.
  exact (conj (proj1 (status_from_draw sample_world sample_world_ok))
          (conj (proj1 (proj2 (status_from_draw sample_world sample_world_ok)))
            (conj (proj1 (proj2 (proj2 (status_from_draw sample_world sample_world_ok))))
                  (proj2 (proj2 (proj2 (status_from_draw sample_world sample_world_ok)))
                         eq_refl)))).
Defined.

(** C10: whenever [rand()] keeps its contract, in the line written for every
    generated ride the Distance field is a whole number [K] of tenths with
    [20 <= K <= 120], written with one digit after the point, and the Fare
    field is the integer [1200 * K]: a positive multiple of 1200 between
    24000 and 144000.  These are the numbers [setprecision(1)] and
    [setprecision(0)] print the distance and the fare as.  When rides.csv
    can be opened, it holds the header and these lines. *)
Theorem fare_multiple_of_1200 (w : World) :
  rand_ok w ->
  Forall (fun r =>
            exists K F, fixed_field 1 (ri_distance r) = Some K /\
                        fixed_field 0 (ri_fare r) = Some F /\
                        field_of ride_header "Distance" (ride_line r)
                        = Some (tenths_text K) /\
                        field_of ride_header "Fare" (ride_line r) = Some (show_int F) /\
                        20 <= K <= 120 /\ F = 1200 * K /\
                        0 < F /\ 24000 <= F <= 144000)
         (rides (generated w)) /\
  (w_can_open w (csv_path Rides) = true ->
   files w (csv_path Rides) = Some (ride_header :: map ride_line (rides (generated w)))).
Proof.
  intros Hok. split.
  - eapply Forall_impl; [|apply rides_written, Hok].
    intros r (K & draw & HK & Ed & Ef & _ & _ & El).
    destruct (ride_columns _ _ El) as (C3 & C4 & _).
    exists K, (1200 * K). rewrite Ef, Ed, C3, C4.
    split; [apply tenth_printed_all; lia|].
    split; [apply fare_printed_all, HK|].
    split; [reflexivity|]. split; [reflexivity|]. lia.
  - intros Hopen. rewrite (files_spec w Rides), Hopen. reflexivity.
Qed.

Lemma fare_multiple_of_1200_witness :
  Forall (fun r =>
            exists K F, fixed_field 1 (ri_distance r) = Some K /\
                        fixed_field 0 (ri_fare r) = Some F /\
                        field_of ride_header "Distance" (ride_line r)
                        = Some (tenths_text K) /\
                        field_of ride_header "Fare" (ride_line r) = Some (show_int F) /\
                        20 <= K <= 120 /\ F = 1200 * K /\
                        0 < F /\ 24000 <= F <= 144000)
         (rides (generated sample_world)) /\
  files sample_world (csv_path Rides)
  = Some (ride_header :: map ride_line (rides (generated sample_world))).
Proof.
  exact (conj (proj1 (fare_multiple_of_1200 sample_world sample_world_ok))
              (proj2 (fare_multiple_of_1200 sample_world sample_world_ok) eq_refl)).
Defined.

(** X12: whenever [rand()] keeps its contract, the numbers are written as the
    spec's format says.  The line of every generated driver splits at its
    commas into exactly six fields: the id, the name, the rating as a whole
    number of tenths from 3.5 to 5.0, the two coordinates as whole numbers
    of tenths from 0.0 to 10.0, each with exactly one digit after the point,
    and the total.  The line of every generated ride splits into exactly
    seven fields: the three ids, the distance as a whole number of tenths
    from 2.0 to 12.0, the fare as the integer 1200 times that number of
    tenths, without a decimal point, the timestamp and the status. *)
Theorem numeric_fields_text (w : World) :
  rand_ok w ->
  Forall (fun d =>
            exists K X Y, 35 <= K <= 50 /\ 0 <= X <= 100 /\ 0 <= Y <= 100 /\
              csv_fields (driver_line d) =
              [show_int (dr_id d); dr_name d; tenths_text K; tenths_text X;
               tenths_text Y; show_int (dr_total d)])
         (drivers (generated w)) /\
  Forall (fun r =>
            exists K, 20 <= K <= 120 /\
              csv_fields (ride_line r) =
              [show_int (ri_id r); show_int (ri_customer r); show_int (ri_driver r);
               tenths_text K; show_int (1200 * K); ri_timestamp r; ri_status r])
         (rides (generated w)).
Proof.
  intros Hok. split.
  - eapply Forall_impl; [|apply drivers_written, Hok].
    intros d (K & X & Y & HK & HX & HY & _ & _ & _ & El).
    exists K, X, Y. repeat split; try lia. exact El.
  - eapply Forall_impl; [|apply rides_written, Hok].
    intros r (K & draw & HK & _ & _ & _ & _ & El).
    exists K. split; [exact HK|exact El].
Qed.

Lemma numeric_fields_text_witness :
  Forall (fun d =>
            exists K X Y, 35 <= K <= 50 /\ 0 <= X <= 100 /\ 0 <= Y <= 100 /\
              csv_fields (driver_line d) =
              [show_int (dr_id d); dr_name d; tenths_text K; tenths_text X;
               tenths_text Y; show_int (dr_total d)])
         (drivers (generated sample_world)) /\
  Forall (fun r =>
            exists K, 20 <= K <= 120 /\
              csv_fields (ride_line r) =
              [show_int (ri_id r); show_int (ri_customer r); show_int (ri_driver r);
               tenths_text K; show_int (1200 * K); ri_timestamp r; ri_status r])
         (rides (generated sample_world)).
Proof. exact (numeric_fields_text sample_world sample_world_ok). Defined.
